(** * pytimelog: the time-entry log and its daily summary

    A shallow embedding of [src/pytimelog/ui.py]: the two duration
    formatters, the day window, the clip-and-sum of the daily summary and
    the start/stop commands of [TimeLogApp], together with the properties
    the specification states about them.

    Conventions of the embedding.
    - An aware [datetime] is the instant it denotes, in whole seconds since
      the epoch: [local_now] clears the microseconds of every clock reading
      and the log keeps instants to the second.  Comparisons, [max], [min]
      and subtraction of aware datetimes act on that instant.
    - A [timedelta] is a signed number of whole seconds (every timedelta of
      the program is a difference of such instants or a constant), so
      [int(delta.total_seconds())] is the number itself.
    - A Python [str] is the list of its code points.
    - The labels and the listbox of the window are write-only display state
      and are left out of [App]; the text of the summary label is the value
      of [render_summary]. *)

From Stdlib Require Import ZArith Lia Ascii.
From stdpp Require Import base decidable option list strings.

Local Open Scope Z_scope.

(** ** Time values *)

Definition datetime : Type := Z.
Definition timedelta : Type := Z.

(** [timedelta(minutes=m)], [timedelta(hours=h)], [timedelta(days=d)] *)
Definition timedelta_minutes (m : Z) : timedelta := 60 * m.
Definition timedelta_hours (h : Z) : timedelta := 3600 * h.
Definition timedelta_days (d : Z) : timedelta := 86400 * d.

(** [to_utc] re-expresses an aware datetime in UTC; the instant is the same. *)
Definition to_utc (value : datetime) : datetime := value.

(** ** Strings *)

Definition pystr : Type := list N.

(** The code points [str.strip] removes (CPython's [_PyUnicode_IsWhitespace]). *)
Definition isspace (c : N) : bool :=
  ((9 <=? c) && (c <=? 13) || (28 <=? c) && (c <=? 32)
   || (c =? 133) || (c =? 160) || (c =? 5760)
   || (8192 <=? c) && (c <=? 8202)
   || (c =? 8232) || (c =? 8233) || (c =? 8239) || (c =? 8287)
   || (c =? 12288))%N.

Fixpoint lstrip (s : pystr) : pystr :=
  match s with
  | [] => []
  | c :: rest => if isspace c then lstrip rest else s
  end.

Definition rstrip (s : pystr) : pystr := reverse (lstrip (reverse s)).

(** [s.strip()] *)
Definition strip (s : pystr) : pystr := rstrip (lstrip s).

(** ** The storage module *)

(** Modelled from the spec: [Entry] of [pytimelog/storage.py], which is not
    among the sources: a start instant, an end instant that is absent while
    the entry is open, and a description. *)
Record Entry : Type := mkEntry {
  start : datetime;
  end_ : option datetime;
  text : pystr
}.

(** [entry.end or now]: a datetime is always truthy, so only [None] falls
    through to [now]. *)
Definition end_or (e : Entry) (now : datetime) : datetime :=
  match end_ e with
  | Some t => t
  | None => now
  end.

(** Modelled from the spec: [Entry.duration] of [pytimelog/storage.py]:
    [(end or reference_instant) - start]. *)
Definition duration (e : Entry) (now : datetime) : timedelta :=
  end_or e now - start e.

(** Modelled from the spec: [find_open] of [pytimelog/storage.py]: the
    position of the entry whose end is absent, scanning in order, the first
    one met when there are several, absent when there is none. *)
Fixpoint find_open (entries : list Entry) : option nat :=
  match entries with
  | [] => None
  | e :: rest =>
      match end_ e with
      | None => Some 0%nat
      | Some _ => S <$> find_open rest
      end
  end.

(** ** The application state *)

(** [log_file] is the persisted entry sequence behind [read_entries],
    [append_entry] and [write_entries]; [self_entries] is [self.entries];
    [entry_text] is the content of the description field. *)
Record App : Type := mkApp {
  log_file : list Entry;
  self_entries : list Entry;
  entry_text : pystr
}.

(** Modelled from the spec: [read_entries] of [pytimelog/storage.py]
    ([load]): the persisted entries in their original order. *)
Definition read_entries (self : App) : list Entry := log_file self.

(** Modelled from the spec: [append_entry] of [pytimelog/storage.py]
    ([append]): adds one entry to the end of the persisted sequence. *)
Definition append_entry (e : Entry) (self : App) : App :=
  mkApp (log_file self ++ [e]) (self_entries self) (entry_text self).

(** Modelled from the spec: [write_entries] of [pytimelog/storage.py]
    ([replace_all]): rewrites the whole persisted sequence. *)
Definition write_entries (entries : list Entry) (self : App) : App :=
  mkApp entries (self_entries self) (entry_text self).

(** [self.entry_text.delete(0, tk.END)] *)
Definition entry_text_delete (self : App) : App :=
  mkApp (log_file self) (self_entries self) [].

(** The user typing a description into the field. *)
Definition entry_text_set (s : pystr) (self : App) : App :=
  mkApp (log_file self) (self_entries self) s.

(** [refresh]: reloads [self.entries]; what it then draws is display. *)
Definition refresh (self : App) : App :=
  mkApp (log_file self) (read_entries self) (entry_text self).

(** What a command shows or raises. *)
Inductive Dialog : Type :=
  | showwarning (title message : string)
  | showinfo (title message : string).

Inductive Outcome : Type :=
  | Returned (dialog : option Dialog)
  | IndexError.

Definition EmptyDescription : Outcome :=
  Returned (Some (showwarning "pytimelog" "Please enter a description.")).
Definition AlreadyRunning : Outcome :=
  Returned (Some (showwarning "pytimelog" "An entry is already running.")).
Definition NothingRunning : Outcome :=
  Returned (Some (showinfo "pytimelog" "No active entry to stop.")).

(** ** The commands *)

(** [TimeLogApp.start_entry]; [now] is the clock reading of [local_now()]. *)
Definition start_entry (now : datetime) (self : App) : Outcome * App :=
  let text := strip (entry_text self) in
  if bool_decide (text = []) then (EmptyDescription, self)
  else
    let entries := read_entries self in
    match find_open entries with
    | Some _ => (AlreadyRunning, self)
    | None =>
        let start := to_utc now in
        let self := append_entry (mkEntry start None text) self in
        let self := entry_text_delete self in
        (Returned None, refresh self)
    end.

(** The instant [stop_entry] writes as the end of the entry it closes. *)
Definition stop_instant (now : datetime) (open_entry : Entry) : datetime :=
  if now <=? start open_entry
  then start open_entry + timedelta_minutes 1
  else now.

(** [TimeLogApp.stop_entry]; [now] is the clock reading of [local_now()]. *)
Definition stop_entry (now : datetime) (self : App) : Outcome * App :=
  let entries := read_entries self in
  match find_open entries with
  | None => (NothingRunning, self)
  | Some idx =>
      let now := to_utc now in
      match entries !! idx with
      | None => (IndexError, self)
      | Some open_entry =>
          let now := stop_instant now open_entry in
          let entries :=
            <[idx := mkEntry (start open_entry) (Some now) (text open_entry)]> entries in
          let self := write_entries entries self in
          (Returned None, refresh self)
      end
  end.

(** One command of the user: a description typed into the field followed by
    the Start button, or the Stop button; each with the clock reading the
    command takes. *)
Inductive Command : Type :=
  | Start (description : pystr) (now : datetime)
  | Stop (now : datetime).

Definition step (c : Command) (self : App) : Outcome * App :=
  match c with
  | Start description now => start_entry now (entry_text_set description self)
  | Stop now => stop_entry now self
  end.

Definition run (cmds : list Command) (self : App) : App :=
  fold_left (fun app c => snd (step c app)) cmds self.

Definition is_start (c : Command) : bool :=
  match c with Start _ _ => true | Stop _ => false end.

(** No two consecutive commands of the same kind. *)
Fixpoint alternating (cmds : list Command) : bool :=
  match cmds with
  | c1 :: ((c2 :: _) as rest) => negb (eqb (is_start c1) (is_start c2)) && alternating rest
  | _ => true
  end.

Definition is_open (e : Entry) : bool :=
  match end_ e with None => true | Some _ => false end.

(** The number of positions [find_open] could match. *)
Definition open_count (entries : list Entry) : nat :=
  length (filter (fun e => is_open e = true) entries).

(** ** Rendering integers *)

(** The decimal digits of a non-negative integer, least significant first. *)
Fixpoint digits_lsf (fuel : nat) (n : Z) : list Z :=
  match fuel with
  | O => []
  | S fuel' => n mod 10 :: (if n <? 10 then [] else digits_lsf fuel' (n / 10))
  end.

Definition digit_char (d : Z) : ascii := ascii_of_N (48 + Z.to_N d).

Definition string_of_digits (ds : list Z) : string :=
  fold_left (fun acc d => String (digit_char d) acc) ds EmptyString.

(** [str(n)] for [0 <= n]: [n < 2 ^ (log2 n + 1)] bounds the digits needed. *)
Definition decimal (n : Z) : string :=
  string_of_digits (digits_lsf (S (Z.to_nat (Z.log2 n))) n).

Fixpoint zeros (k : nat) : string :=
  match k with
  | O => EmptyString
  | S k' => String "0" (zeros k')
  end.

(** Left padding with ['0'] up to [width] characters. *)
Definition zfill (width : nat) (s : string) : string :=
  zeros (width - String.length s) +:+ s.

(** [f"{n}"] *)
Definition format_d (n : Z) : string :=
  if n <? 0 then "-" +:+ decimal (- n) else decimal n.

(** [f"{n:02d}"]: the sign counts in the width. *)
Definition format_02d (n : Z) : string :=
  if n <? 0 then "-" +:+ zfill 1 (decimal (- n)) else zfill 2 (decimal n).

(** ** The formatters *)

(** [format_duration] *)
Definition format_duration (delta : timedelta) : string :=
  let total_seconds := delta in
  let hours := total_seconds / 3600 in
  let remainder := total_seconds mod 3600 in
  let minutes := remainder / 60 in
  format_d hours +:+ "h" +:+ format_02d minutes +:+ "m".

(** [format_hhmm] *)
Definition format_hhmm (delta : timedelta) : string :=
  let total_minutes := delta / 60 in
  let hours := total_minutes / 60 in
  let minutes := total_minutes mod 60 in
  format_02d hours +:+ ":" +:+ format_02d minutes.

(** ** The day window *)

(** The local time zone of the machine: the UTC offset, in seconds, that it
    applies at each instant.  [now.astimezone()] consults it at [now]. *)
Definition timezone : Type := datetime -> Z.

(** [now.astimezone().tzinfo]: a fixed-offset zone, the offset in force at
    [now]. *)
Definition astimezone_tzinfo (tz : timezone) (now : datetime) : Z := tz now.

(** [now.astimezone().date()], as the number of the day since the epoch. *)
Definition astimezone_date (tz : timezone) (now : datetime) : Z :=
  (now + tz now) / 86400.

(** [datetime.combine(day, time.min, tzinfo=tzinfo).astimezone(timezone.utc)]
    for a fixed-offset [tzinfo]. *)
Definition combine_min_utc (day : Z) (tzinfo : Z) : datetime :=
  86400 * day - tzinfo.

(** [TimeLogApp.today_window] *)
Definition today_window (tz : timezone) (now : datetime) : datetime * datetime :=
  let tzinfo := astimezone_tzinfo tz now in
  let today := astimezone_date tz now in
  let start_local := combine_min_utc today tzinfo in
  let end_local := combine_min_utc (today + 1) tzinfo in
  (start_local, end_local).

(** ** The daily summary *)

(** The loop of [render_summary]: [total] after the last entry. *)
Definition daily_total (entries : list Entry) (now : datetime)
    (window : datetime * datetime) : timedelta :=
  let '(start_local, end_local) := window in
  fold_left
    (fun total entry =>
       let entry_end := end_or entry now in
       let latest_start := Z.max (start entry) start_local in
       let earliest_end := Z.min entry_end end_local in
       if earliest_end <=? latest_start then total
       else total + (earliest_end - latest_start))
    entries 0.

(** The clamp of [render_summary], with its target as a parameter. *)
Definition remaining (total target : timedelta) : timedelta :=
  let remaining := target - total in
  if remaining <? 0 then 0 else remaining.

(** [TimeLogApp.render_summary]: the text put on the summary label. *)
Definition render_summary (tz : timezone) (entries : list Entry)
    (now : datetime) : string :=
  let total := daily_total entries now (today_window tz now) in
  let target := timedelta_hours 8 in
  let remaining := remaining total target in
  "Today: " +:+ format_hhmm total +:+ " worked, "
    +:+ format_hhmm remaining +:+ " remaining to 08:00".

(** ** Notions the statements use *)

(** The clipped length as the specification words it: the length of
    [(max(start, window_start), min(end_or_now, window_end))] when that is
    positive, zero otherwise. *)
Definition clipped_length (now : datetime) (window : datetime * datetime)
    (entry : Entry) : timedelta :=
  let length := Z.min (end_or entry now) (snd window)
                - Z.max (start entry) (fst window) in
  if 0 <? length then length else 0.

(** The sum of a list of timedeltas. *)
Definition sum_timedeltas (ds : list timedelta) : timedelta :=
  foldr Z.add 0 ds.

(** The end instant found at [idx] in the log after [stop_entry]. *)
Definition written_end (now : datetime) (self : App) (idx : nat) : option datetime :=
  log_file (snd (stop_entry now self)) !! idx ≫= end_.

(** The instant [t] is a local midnight of the zone: the wall clock of the
    zone reads 00:00:00 of the day numbered [day] there. *)
Definition is_local_midnight (tz : timezone) (day : Z) (t : datetime) : Prop :=
  t + tz t = 86400 * day.

(** A zone with a change of offset: UTC+1 before 2024-03-31 01:00:00 UTC
    (instant 1711846800) and UTC+2 from then on. *)
Definition spring_forward_zone : timezone :=
  fun t => if t <? 1711846800 then 3600 else 7200.

(** Every code point of [s] is one that [strip] removes. *)
Definition whitespace (s : pystr) : Prop := Forall (fun c => isspace c = true) s.

(** [s] neither begins nor ends with a code point that [strip] removes. *)
Definition no_surrounding_whitespace (s : pystr) : Prop :=
  (forall c, head s = Some c -> isspace c = false) /\
  (forall c, last s = Some c -> isspace c = false).

(** Both ends of the effective interval [[start, end or now]] lie within
    the window. *)
Definition inside_window (now : datetime) (window : datetime * datetime)
    (e : Entry) : Prop :=
  fst window <= start e /\ end_or e now <= snd window.

(** The effective interval ends at or before the window, or starts at or
    after it. *)
Definition outside_window (now : datetime) (window : datetime * datetime)
    (e : Entry) : Prop :=
  end_or e now <= fst window \/ snd window <= start e.

(** The value a string of decimal digits denotes. *)
Definition digit_value (c : ascii) : Z := Z.of_N (N_of_ascii c) - 48.

Fixpoint decimal_value_from (acc : Z) (s : string) : Z :=
  match s with
  | EmptyString => acc
  | String c rest => decimal_value_from (10 * acc + digit_value c) rest
  end.

Definition decimal_value (s : string) : Z := decimal_value_from 0 s.

Definition is_digit (c : ascii) : bool :=
  (48 <=? N_of_ascii c)%N && (N_of_ascii c <=? 57)%N.

Fixpoint all_digits (s : string) : bool :=
  match s with
  | EmptyString => true
  | String c rest => is_digit c && all_digits rest
  end.

(** A numeral as [str] writes it: digits, and no leading ['0'] except for
    zero itself. *)
Definition unpadded (s : string) : Prop :=
  all_digits s = true /\
  (s = "0" \/ exists c rest, s = String c rest /\ c <> "0"%char).

(** [s] is the numeral of [n] on exactly two digits. *)
Definition two_digits (s : string) (n : Z) : Prop :=
  String.length s = 2%nat /\ all_digits s = true /\ decimal_value s = n.

(** ** Naive and aware values *)

(** A datetime as [to_utc] may receive it: the wall-clock reading in
    seconds, and the UTC offset of its [tzinfo], absent for a naive value. *)
Module Wall.

Record stamp : Type := mkStamp {
  wall : Z;
  utcoffset : option Z
}.

(** [value.replace(tzinfo=timezone.utc)] *)
Definition replace_utc (value : stamp) : stamp :=
  mkStamp (wall value) (Some 0).

(** [value.astimezone(timezone.utc)] for an aware value. *)
Definition astimezone_utc (value : stamp) : stamp :=
  match utcoffset value with
  | Some offset => mkStamp (wall value - offset) (Some 0)
  | None => value
  end.

(** [to_utc] *)
Definition to_utc (value : stamp) : stamp :=
  let value :=
    match utcoffset value with
    | None => replace_utc value
    | Some _ => value
    end in
  astimezone_utc value.

(** The instant an aware value denotes. *)
Definition instant (value : stamp) : option datetime :=
  match utcoffset value with
  | Some offset => Some (wall value - offset)
  | None => None
  end.

End Wall.

(** ** The list of today's entries and the status line *)

(** An ASCII literal or rendering as a Python [str]. *)
Definition pystr_of_string (s : string) : pystr :=
  N_of_ascii <$> String.list_ascii_of_string s.

(** [value.astimezone(tzinfo)] for a fixed-offset [tzinfo]: the wall-clock
    reading there, in seconds. *)
Definition astimezone_wall (value : datetime) (tzinfo : Z) : Z :=
  value + tzinfo.

(** [strftime("%H:%M")] of a wall-clock reading. *)
Definition strftime_HM (wall : Z) : string :=
  let hour := wall mod 86400 / 3600 in
  let minute := wall mod 3600 / 60 in
  format_02d hour +:+ ":" +:+ format_02d minute.

Fixpoint spaces (k : nat) : string :=
  match k with
  | O => EmptyString
  | S k' => String " " (spaces k')
  end.

(** [f"{s:>6}"] with its width as a parameter. *)
Definition rjust (width : nat) (s : string) : string :=
  spaces (width - String.length s) +:+ s.

(** [format_entry_line]; [tzinfo] is a fixed-offset zone. *)
Definition format_entry_line (entry : Entry) (now : datetime) (tzinfo : Z) : pystr :=
  let start_local := astimezone_wall (start entry) tzinfo in
  let end_local := astimezone_wall (end_or entry now) tzinfo in
  let duration := duration entry now in
  let end_label :=
    match end_ entry with
    | Some _ => pystr_of_string (strftime_HM end_local)
    | None => [8230%N]
    end in
  pystr_of_string (strftime_HM start_local +:+ " - ")
    ++ end_label
    ++ pystr_of_string ("  " +:+ rjust 6 (format_duration duration) +:+ "  ")
    ++ text entry.

(** [TimeLogApp.render_today]: the lines of the listbox, which is emptied
    and then filled in the order of the entries. *)
Definition render_today (tz : timezone) (entries : list Entry)
    (now : datetime) : list pystr :=
  let tzinfo := astimezone_tzinfo tz now in
  let '(start_local, end_local) := today_window tz now in
  fold_left
    (fun listbox entry =>
       let entry_end := end_or entry now in
       if (end_local <=? start entry) || (entry_end <=? start_local)
       then listbox
       else listbox ++ [format_entry_line entry now tzinfo])
    entries [].

(** [TimeLogApp.render_status]: the text of the status label, or nothing
    when [self.entries[idx]] raises [IndexError]. *)
Definition render_status (entries : list Entry) (now : datetime) : option pystr :=
  match find_open entries with
  | None => Some (pystr_of_string "Status: idle")
  | Some idx =>
      match entries !! idx with
      | None => None
      | Some entry =>
          let elapsed := duration entry now in
          Some (pystr_of_string "Status: running '" ++ text entry
                ++ pystr_of_string ("' (" +:+ format_duration elapsed +:+ " elapsed)"))
      end
  end.

(** ** Further notions the statements use *)

(** The test of [render_today] for listing an entry. *)
Definition listed (now : datetime) (window : datetime * datetime)
    (e : Entry) : bool :=
  negb ((snd window <=? start e) || (end_or e now <=? fst window)).

(** The clock reading a command takes. *)
Definition command_now (c : Command) : datetime :=
  match c with
  | Start _ now => now
  | Stop now => now
  end.

(** Every command reads the clock later than the one before it, the first
    one later than [t]. *)
Fixpoint advancing (t : datetime) (cmds : list Command) : Prop :=
  match cmds with
  | [] => True
  | c :: rest => t < command_now c /\ advancing (command_now c) rest
  end.

(** The last clock reading of a command sequence, [t] when it is empty. *)
Definition last_now (t : datetime) (cmds : list Command) : datetime :=
  fold_left (fun _ c => command_now c) cmds t.

(** The entries follow one another in time between [from] and [upto]: each
    starts no earlier than its predecessor ended, a closed entry ends after
    it starts, and only the last entry may be open. *)
Fixpoint chronological (from : datetime) (entries : list Entry)
    (upto : datetime) : Prop :=
  match entries with
  | [] => from <= upto
  | e :: rest =>
      from <= start e /\
      match end_ e with
      | Some t => start e < t /\ chronological t rest upto
      | None => rest = [] /\ start e <= upto
      end
  end.

(** The rendering of [n] behind a minus sign is a plain numeral. *)
Definition negative_numeral (s : string) (n : Z) : Prop :=
  exists digits, s = String "-" digits /\ unpadded digits /\
    decimal_value digits = - n.

Example format_entry_line_closed :
  format_entry_line
    (mkEntry 32400 (Some 34200) (pystr_of_string "writing")) 36000 0
  = pystr_of_string "09:00 - 09:30   0h30m  writing".
Proof. reflexivity. Qed.

Example format_entry_line_open :
  format_entry_line (mkEntry 32400 None (pystr_of_string "writing")) 79200 7200
  = pystr_of_string "11:00 - " ++ [8230%N] ++ pystr_of_string "  13h00m  writing".
Proof. reflexivity. Qed.

Example render_status_running :
  render_status [mkEntry 32400 None (pystr_of_string "writing")] 34200
  = Some (pystr_of_string "Status: running 'writing' (0h30m elapsed)").
Proof. reflexivity. Qed.

Example format_duration_0 : format_duration 0 = "0h00m". Proof. reflexivity. Qed.
Example format_duration_5459 : format_duration 5459 = "1h30m". Proof. reflexivity. Qed.
Example format_duration_100h : format_duration 360059 = "100h00m". Proof. reflexivity. Qed.
Example format_duration_neg : format_duration (-1) = "-1h59m". Proof. reflexivity. Qed.
Example format_hhmm_1800 : format_hhmm 1800 = "00:30". Proof. reflexivity. Qed.
Example format_hhmm_27000 : format_hhmm 27000 = "07:30". Proof. reflexivity. Qed.
Example format_hhmm_neg : format_hhmm (-60) = "-1:59". Proof. reflexivity. Qed.
Example strip_example : strip [32; 9; 97; 32; 98; 10; 160]%N = [97; 32; 98]%N.
Proof. reflexivity. Qed.

(** Start "writing" at 09:00:00Z and stop at 09:30:00Z, in a UTC zone. *)
Example scenario_writing :
  let writing := [119; 114; 105; 116; 105; 110; 103]%N in
  let app := run [Start writing 32400; Stop 34200] (mkApp [] [] []) in
  log_file app = [mkEntry 32400 (Some 34200) writing] /\
  find_open (log_file app) = None /\
  format_duration (daily_total (self_entries app) 36000 (0, 86400)) = "0h30m" /\
  render_summary (fun _ => 0) (self_entries app) 36000
  = "Today: 00:30 worked, 07:30 remaining to 08:00".
Proof. repeat split; reflexivity. Qed.

(** * Properties *)

(** ** The open entry *)

Lemma find_open_lookup (entries : list Entry) (idx : nat) :
  find_open entries = Some idx ->
  exists e, entries !! idx = Some e /\ end_ e = None.
Proof.
  revert idx. induction entries as [|e rest IH]; intros idx H; simpl in H.
  - discriminate.
  - destruct (end_ e) eqn:He.
    + destruct (find_open rest) as [k|]; simpl in H; [|discriminate].
      injection H as <-. simpl. apply IH. reflexivity.
    + injection H as <-. exists e. split; [reflexivity | exact He].
Qed.

Lemma find_open_first (entries : list Entry) (idx j : nat) (e : Entry) :
  find_open entries = Some idx -> entries !! j = Some e -> end_ e = None ->
  (idx <= j)%nat.
Proof.
  revert idx j. induction entries as [|x rest IH]; intros idx j H Hj He; simpl in H.
  - discriminate.
  - destruct (end_ x) eqn:Hx.
    + destruct (find_open rest) as [k|] eqn:Hk; simpl in H; [|discriminate].
      injection H as <-. destruct j as [|j]; simpl in Hj.
      * injection Hj as ->. congruence.
      * apply le_n_S. eapply IH; eauto.
    + injection H as <-. lia.
Qed.

Lemma open_count_app (l1 l2 : list Entry) :
  open_count (l1 ++ l2) = (open_count l1 + open_count l2)%nat.
Proof. unfold open_count. rewrite filter_app, length_app. reflexivity. Qed.

Lemma open_count_cons (e : Entry) (l : list Entry) :
  open_count (e :: l) = ((if is_open e then 1 else 0) + open_count l)%nat.
Proof.
  unfold open_count. rewrite filter_cons.
  destruct (decide (is_open e = true)) as [-> | H]; [reflexivity |].
  destruct (is_open e); [congruence | reflexivity].
Qed.

Lemma find_open_None (entries : list Entry) :
  find_open entries = None <-> open_count entries = 0%nat.
Proof.
  induction entries as [|e rest IH]; simpl.
  - split; reflexivity.
  - rewrite open_count_cons. unfold is_open.
    destruct (end_ e) eqn:He; simpl.
    + rewrite <- IH. destruct (find_open rest); simpl; split; congruence.
    + split; discriminate.
Qed.

(** Closing the entry at [idx], which was open, removes one open entry. *)
Lemma open_count_close (entries : list Entry) (idx : nat) (e : Entry) (t : datetime) :
  entries !! idx = Some e -> end_ e = None ->
  S (open_count (<[idx := mkEntry (start e) (Some t) (text e)]> entries))
  = open_count entries.
Proof.
  revert idx. induction entries as [|x rest IH]; intros idx Hl He.
  - discriminate.
  - destruct idx as [|idx]; simpl in *.
    + injection Hl as ->. rewrite !open_count_cons. unfold is_open. simpl.
      rewrite He. reflexivity.
    + rewrite !open_count_cons. rewrite <- (IH idx Hl He). lia.
Qed.

(** ** The stop command *)

(** With an open entry, [stop_entry] rewrites the log with that one entry
    closed at [stop_instant] and reloads [self.entries]. *)
Lemma stop_entry_running (now : datetime) (self : App) (idx : nat) :
  find_open (log_file self) = Some idx ->
  exists open_entry,
    log_file self !! idx = Some open_entry /\ end_ open_entry = None /\
    let closed := mkEntry (start open_entry)
                    (Some (stop_instant now open_entry)) (text open_entry) in
    let entries := <[idx := closed]> (log_file self) in
    stop_entry now self = (Returned None, mkApp entries entries (entry_text self)).
Proof.
  intros Hopen. destruct (find_open_lookup _ _ Hopen) as (e & Hl & He).
  exists e. split; [exact Hl|]. split; [exact He|]. simpl.
  unfold stop_entry, read_entries. rewrite Hopen, Hl. reflexivity.
Qed.

Lemma stop_instant_after_start (now : datetime) (e : Entry) :
  start e < stop_instant now e.
Proof.
  unfold stop_instant, timedelta_minutes.
  destruct (Z.leb_spec now (start e)); lia.
Qed.

(** C2. Every entry the stop command writes ends strictly after it starts:
    the entry [find_open] reports is rewritten in place with an end that is
    later than its start, and that is [start + 1 minute] when the clock
    reading is at or before the start; its duration is therefore positive.
    No other position of the log changes. *)
Theorem stop_entry_end_after_start (now : datetime) (self : App) (idx : nat) :
  find_open (log_file self) = Some idx ->
  exists open_entry closed t,
    log_file self !! idx = Some open_entry /\
    log_file (snd (stop_entry now self)) !! idx = Some closed /\
    start closed = start open_entry /\
    text closed = text open_entry /\
    end_ closed = Some t /\
    start closed < t /\
    (now <= start open_entry -> t = start open_entry + timedelta_minutes 1) /\
    (forall reference, 0 < duration closed reference) /\
    (forall j, j <> idx ->
       log_file (snd (stop_entry now self)) !! j = log_file self !! j).
Proof.
  intros Hopen.
  destruct (stop_entry_running now self idx Hopen) as (e & Hl & He & Hstop).
  simpl in Hstop. rewrite Hstop. simpl.
  exists e, (mkEntry (start e) (Some (stop_instant now e)) (text e)),
    (stop_instant now e).
  pose proof (stop_instant_after_start now e) as Hlt.
  repeat split; simpl; try assumption.
  - apply list_lookup_insert_eq. eapply lookup_lt_Some; eassumption.
  - intros Hle. unfold stop_instant.
    destruct (Z.leb_spec now (start e)); [reflexivity | lia].
  - intros reference. unfold duration, end_or. simpl. lia.
  - intros j Hj. apply list_lookup_insert_ne. congruence.
Qed.

Lemma stop_entry_end_after_start_witness :
  exists open_entry closed t,
    [mkEntry 32400 None [119%N]] !! 0%nat = Some open_entry /\
    log_file (snd (stop_entry 32399
      (mkApp [mkEntry 32400 None [119%N]] [] []))) !! 0%nat = Some closed /\
    start closed = start open_entry /\
    text closed = text open_entry /\
    end_ closed = Some t /\
    start closed < t /\
    (32399 <= start open_entry -> t = start open_entry + timedelta_minutes 1) /\
    (forall reference, 0 < duration closed reference) /\
    (forall j, j <> 0%nat ->
       log_file (snd (stop_entry 32399
         (mkApp [mkEntry 32400 None [119%N]] [] []))) !! j
       = [mkEntry 32400 None [119%N]] !! j).
Proof.
  apply (stop_entry_end_after_start 32399
           (mkApp [mkEntry 32400 None [119%N]] [] []) 0%nat).
  reflexivity.
Defined.

(** C3, as the specification has it, fails: an entry started at 0 and
    stopped at second 30 is closed at 30, not at [max(30, 0 + 60) = 60]. *)
Lemma stop_entry_not_max_counterexample :
  let open_entry := mkEntry 0 None [119%N] in
  let self := mkApp [open_entry] [open_entry] [] in
  find_open (log_file self) = Some 0%nat /\
  start open_entry < 30 < start open_entry + timedelta_minutes 1 /\
  written_end 30 self 0%nat = Some 30 /\
  written_end 30 self 0%nat
    <> Some (Z.max 30 (start open_entry + timedelta_minutes 1)).
Proof. vm_compute. repeat split; congruence. Qed.

(** C3, amended. The stop transition sets the end of the open entry to the
    clock reading [now] when [now] is later than the start, and to
    [start + 1 minute] when [now] is at or before the start.  That is
    [max(now, start + 1 minute)] in the second case and whenever
    [now >= start + 1 minute]; for [now] strictly between [start] and
    [start + 1 minute] the written end is [now] itself. *)
Theorem stop_entry_written_end (now : datetime) (self : App) (idx : nat)
    (open_entry : Entry) :
  find_open (log_file self) = Some idx ->
  log_file self !! idx = Some open_entry ->
  log_file (snd (stop_entry now self))
  = <[idx := mkEntry (start open_entry)
               (Some (if now <=? start open_entry
                      then start open_entry + timedelta_minutes 1
                      else now))
               (text open_entry)]> (log_file self) /\
  (start open_entry < now -> written_end now self idx = Some now) /\
  (now <= start open_entry ->
     written_end now self idx = Some (start open_entry + timedelta_minutes 1)) /\
  (now <= start open_entry \/ start open_entry + timedelta_minutes 1 <= now ->
     written_end now self idx
     = Some (Z.max now (start open_entry + timedelta_minutes 1))) /\
  (start open_entry < now < start open_entry + timedelta_minutes 1 ->
     written_end now self idx = Some now /\
     written_end now self idx <> Some (start open_entry + timedelta_minutes 1)).
Proof.
  intros Hopen Hl.
  destruct (stop_entry_running now self idx Hopen) as (e & Hl' & He & Hstop).
  rewrite Hl in Hl'. injection Hl' as <-. simpl in Hstop.
  unfold written_end. rewrite Hstop. simpl.
  rewrite list_lookup_insert_eq by (eapply lookup_lt_Some; eassumption).
  simpl. unfold stop_instant, timedelta_minutes.
  split; [reflexivity|].
  destruct (Z.leb_spec now (start open_entry)); repeat split; intros;
    try (f_equal; lia); try (intros [=]; lia).
Qed.

Lemma stop_entry_written_end_witness :
  let open_entry := mkEntry 0 None [119%N] in
  let self := mkApp [open_entry] [open_entry] [] in
  start open_entry < 30 < start open_entry + timedelta_minutes 1 /\
  written_end 30 self 0%nat = Some 30.
Proof.
  intros open_entry self.
  split; [vm_compute; split; reflexivity|].
  refine (proj1 (proj2 (stop_entry_written_end 30 self 0%nat open_entry _ _)) _);
    [reflexivity | reflexivity | vm_compute; reflexivity].
Defined.

(** ** The daily summary *)

Lemma daily_total_fold (now : datetime) (window : datetime * datetime)
    (entries : list Entry) (acc : timedelta) :
  fold_left
    (fun total entry =>
       let entry_end := end_or entry now in
       let latest_start := Z.max (start entry) (fst window) in
       let earliest_end := Z.min entry_end (snd window) in
       if earliest_end <=? latest_start then total
       else total + (earliest_end - latest_start))
    entries acc
  = acc + sum_timedeltas (clipped_length now window <$> entries).
Proof.
  revert acc. induction entries as [|e rest IH]; intros acc.
  - simpl. lia.
  - rewrite fmap_cons. cbn [fold_left]. rewrite IH.
    unfold sum_timedeltas. cbn [foldr].
    generalize (foldr Z.add 0 (clipped_length now window <$> rest)).
    intros rest_sum. unfold clipped_length. cbv zeta.
    destruct (Z.leb_spec (Z.min (end_or e now) (snd window))
                (Z.max (start e) (fst window)));
      destruct (Z.ltb_spec 0 (Z.min (end_or e now) (snd window)
                                - Z.max (start e) (fst window))); lia.
Qed.

Lemma daily_total_sum (entries : list Entry) (now : datetime)
    (window : datetime * datetime) :
  daily_total entries now window
  = sum_timedeltas (clipped_length now window <$> entries).
Proof.
  destruct window as [ws we].
  exact (daily_total_fold now (ws, we) entries 0).
Qed.

Lemma sum_timedeltas_app (l1 l2 : list timedelta) :
  sum_timedeltas (l1 ++ l2) = sum_timedeltas l1 + sum_timedeltas l2.
Proof. induction l1 as [|x l1 IH]; simpl; lia. Qed.

Lemma sum_timedeltas_Permutation (l1 l2 : list timedelta) :
  l1 ≡ₚ l2 -> sum_timedeltas l1 = sum_timedeltas l2.
Proof.
  unfold sum_timedeltas.
  induction 1 as [|x l1 l2 _ IH|x y l|l1 l2 l3 _ IH1 _ IH2]; cbn [foldr].
  - reflexivity.
  - rewrite IH. reflexivity.
  - lia.
  - congruence.
Qed.

(** What one entry adds to the total, wherever it stands in the list. *)
Lemma daily_total_insert (before after : list Entry) (e : Entry)
    (now : datetime) (window : datetime * datetime) :
  daily_total (before ++ e :: after) now window
  = daily_total (before ++ after) now window + clipped_length now window e.
Proof.
  rewrite !daily_total_sum, !fmap_app, fmap_cons, !sum_timedeltas_app.
  simpl. lia.
Qed.

Lemma clipped_length_outside (now : datetime) (window : datetime * datetime)
    (e : Entry) :
  outside_window now window e -> clipped_length now window e = 0.
Proof.
  unfold outside_window, clipped_length. intros H.
  destruct (Z.ltb_spec 0 (Z.min (end_or e now) (snd window)
                            - Z.max (start e) (fst window))); lia.
Qed.

Lemma clipped_length_inside (now : datetime) (window : datetime * datetime)
    (e : Entry) :
  inside_window now window e ->
  clipped_length now window e = Z.max 0 (duration e now).
Proof.
  unfold inside_window, clipped_length, duration. intros [H1 H2].
  destruct (Z.ltb_spec 0 (Z.min (end_or e now) (snd window)
                            - Z.max (start e) (fst window))); lia.
Qed.

(** C4, as the specification has it, fails on an open entry whose start is
    later than the clock reading (the case [stop_entry] guards against): it
    lies within the window, its duration is -1 second, and it adds zero. *)
Lemma daily_total_inside_counterexample :
  let e := mkEntry 32400 None [119%N] in
  let now := 32399 in
  let window := (0, 86400) in
  inside_window now window e /\
  duration e now = -1 /\
  daily_total [e] now window = 0 /\
  daily_total [e] now window <> daily_total [] now window + duration e now.
Proof. vm_compute. repeat split; congruence. Qed.

(** C4, amended. [daily_total] is the sum over the entries of the length of
    [(max(start, window_start), min(end_or_now, window_end))] where that
    length is positive and of zero elsewhere.  An entry whose effective
    interval lies outside the window adds exactly zero.  An entry inside the
    window adds its full duration when that duration is not negative
    ([start <= end_or_now]), and zero when it is. *)
Theorem daily_total_clip_sum (entries : list Entry) (now : datetime)
    (window : datetime * datetime) :
  daily_total entries now window
  = sum_timedeltas (clipped_length now window <$> entries) /\
  (forall before e after,
     outside_window now window e ->
     daily_total (before ++ e :: after) now window
     = daily_total (before ++ after) now window) /\
  (forall before e after,
     inside_window now window e -> start e <= end_or e now ->
     daily_total (before ++ e :: after) now window
     = daily_total (before ++ after) now window + duration e now) /\
  (forall before e after,
     inside_window now window e -> end_or e now < start e ->
     daily_total (before ++ e :: after) now window
     = daily_total (before ++ after) now window).
Proof.
  split; [apply daily_total_sum|].
  repeat split; intros before e after H; [|intros Hd ..];
    rewrite daily_total_insert.
  - rewrite clipped_length_outside by assumption. lia.
  - rewrite clipped_length_inside by assumption. unfold duration. lia.
  - rewrite clipped_length_inside by assumption. unfold duration. lia.
Qed.

Lemma daily_total_clip_sum_witness :
  let e := mkEntry 32400 (Some 34200) [119%N] in
  let window := (0, 86400) in
  inside_window 40000 window e /\ start e <= end_or e 40000 /\
  daily_total ([] ++ e :: []) 40000 window
  = daily_total ([] ++ []) 40000 window + duration e 40000.
Proof.
  intros e window.
  assert (Hin : inside_window 40000 window e) by (vm_compute; split; congruence).
  assert (Hd : start e <= end_or e 40000) by (vm_compute; congruence).
  split; [exact Hin|]. split; [exact Hd|].
  exact (proj1 (proj2 (proj2 (daily_total_clip_sum [] 40000 window))) [] e [] Hin Hd).
Defined.

(** C5. [daily_total] does not depend on the order of the entries: any
    permutation of the list gives the same total. *)
Theorem daily_total_permutation (entries1 entries2 : list Entry)
    (now : datetime) (window : datetime * datetime) :
  entries1 ≡ₚ entries2 ->
  daily_total entries1 now window = daily_total entries2 now window.
Proof.
  intros Hperm. rewrite !daily_total_sum.
  apply sum_timedeltas_Permutation, fmap_Permutation, Hperm.
Qed.

Lemma daily_total_permutation_witness :
  let a := mkEntry 32400 (Some 34200) [97%N] in
  let b := mkEntry 36000 None [98%N] in
  let c := mkEntry (-600) (Some 600) [99%N] in
  daily_total [a; b; c] 40000 (0, 86400) = daily_total [c; a; b] 40000 (0, 86400).
Proof.
  intros a b c. apply (daily_total_permutation [a; b; c] [c; a; b]).
  change [c; a; b] with ([c] ++ [a; b]). change [a; b; c] with ([a; b] ++ [c]).
  apply Permutation_app_comm.
Defined.

(** C7. [remaining(total, target)] is [max(target - total, 0)]: it is never
    negative and it is zero whenever [total >= target]. *)
Theorem remaining_clamped (total target : timedelta) :
  remaining total target = Z.max (target - total) 0 /\
  0 <= remaining total target /\
  (target <= total -> remaining total target = 0).
Proof.
  unfold remaining. destruct (Z.ltb_spec (target - total) 0); lia.
Qed.

Lemma remaining_clamped_witness :
  timedelta_hours 8 <= timedelta_hours 9 /\
  remaining (timedelta_hours 9) (timedelta_hours 8) = 0.
Proof.
  assert (H : timedelta_hours 8 <= timedelta_hours 9) by (vm_compute; congruence).
  split; [exact H|].
  exact (proj2 (proj2 (remaining_clamped (timedelta_hours 9) (timedelta_hours 8))) H).
Defined.

(** ** The day window *)

(** C6. [today_window] in a zone whose offset changes during the local day,
    [spring_forward_zone], on its local day 19813, whose local midnights are
    the instants 1711839600 and 1711922400.  At 00:30 UTC, before the
    change, the window ends at 1711926000, where the local wall clock reads
    01:00 of the next day; at 12:00 UTC, after the change, it begins at
    1711836000, where the local wall clock reads 23:00 of the day before.
    Neither is the local midnight the day window is to return, and the same
    local day gets two different windows. *)
Lemma today_window_dst_counterexample :
  let tz := spring_forward_zone in
  let before := 1711845000 in
  let after := 1711886400 in
  astimezone_date tz before = 19813 /\
  astimezone_date tz after = 19813 /\
  is_local_midnight tz 19813 1711839600 /\
  is_local_midnight tz 19814 1711922400 /\
  today_window tz before = (1711839600, 1711926000) /\
  today_window tz after = (1711836000, 1711922400) /\
  ~ is_local_midnight tz 19814 (snd (today_window tz before)) /\
  ~ is_local_midnight tz 19813 (fst (today_window tz after)).
Proof. vm_compute. repeat split; congruence. Qed.

(** What [today_window] computes in every zone: the instants at which a
    clock held at the UTC offset in force at [now] reads midnight of the
    local date of [now] and of the day after.  They are 24 hours apart and
    hold [now] between them; each is a local midnight of the zone only
    where the zone has that same offset at the returned instant. *)
Theorem today_window_midnights (tz : timezone) (now : datetime) :
  let offset := tz now in
  let today := astimezone_date tz now in
  let start_local := fst (today_window tz now) in
  let end_local := snd (today_window tz now) in
  today = (now + offset) / 86400 /\
  start_local + offset = 86400 * today /\
  end_local + offset = 86400 * (today + 1) /\
  start_local <= now < end_local /\
  end_local = start_local + timedelta_days 1 /\
  (end_local = now + timedelta_days 1 <-> now = start_local) /\
  (tz start_local = offset -> is_local_midnight tz today start_local) /\
  (tz end_local = offset -> is_local_midnight tz (today + 1) end_local).
Proof.
  unfold today_window, astimezone_date, astimezone_tzinfo, combine_min_utc,
    is_local_midnight, timedelta_days. simpl.
  pose proof (Z.div_mod (now + tz now) 86400 ltac:(lia)) as Hdm.
  pose proof (Z.mod_pos_bound (now + tz now) 86400 ltac:(lia)) as Hb.
  repeat split; intros; lia.
Qed.

Lemma today_window_midnights_witness :
  let tz := spring_forward_zone in
  let now := 1711972800 in
  tz (fst (today_window tz now)) = tz now /\
  is_local_midnight tz (astimezone_date tz now) (fst (today_window tz now)).
Proof.
  intros tz now.
  assert (H : tz (fst (today_window tz now)) = tz now) by (vm_compute; reflexivity).
  split; [exact H|].
  exact (proj1 (proj2 (proj2 (proj2 (proj2 (proj2 (proj2
           (today_window_midnights tz now))))))) H).
Defined.

(** ** Stripping the description *)

Lemma lstrip_split (s : pystr) :
  exists pre, s = pre ++ lstrip s /\ whitespace pre.
Proof.
  induction s as [|c rest (pre & Heq & Hws)]; simpl.
  - exists []. split; [reflexivity | constructor].
  - destruct (isspace c) eqn:Hc.
    + exists (c :: pre). split; [simpl; congruence | constructor; assumption].
    + exists []. split; [reflexivity | constructor].
Qed.

Lemma lstrip_head (s : pystr) (c : N) :
  head (lstrip s) = Some c -> isspace c = false.
Proof.
  induction s as [|x rest IH]; simpl; [discriminate|].
  destruct (isspace x) eqn:Hx; [exact IH|].
  simpl. intros [= <-]. exact Hx.
Qed.

Lemma lstrip_whitespace (s : pystr) : whitespace s -> lstrip s = [].
Proof.
  induction 1 as [|c rest Hc _ IH]; simpl; [reflexivity|].
  rewrite Hc. exact IH.
Qed.

Lemma whitespace_reverse (s : pystr) : whitespace s -> whitespace (reverse s).
Proof. unfold whitespace. intros H. rewrite Forall_reverse. exact H. Qed.

Lemma rstrip_split (s : pystr) :
  exists post, s = rstrip s ++ post /\ whitespace post.
Proof.
  unfold rstrip. destruct (lstrip_split (reverse s)) as (pre & Heq & Hws).
  exists (reverse pre). split; [|apply whitespace_reverse, Hws].
  rewrite <- reverse_app, <- Heq, reverse_involutive. reflexivity.
Qed.

Lemma rstrip_last (s : pystr) (c : N) :
  last (rstrip s) = Some c -> isspace c = false.
Proof. unfold rstrip. rewrite last_reverse. apply lstrip_head. Qed.

Lemma rstrip_head (s : pystr) (c : N) :
  head (rstrip s) = Some c -> head s = Some c.
Proof.
  destruct (rstrip_split s) as (post & Heq & _). intros H.
  rewrite Heq. rewrite head_app, H. reflexivity.
Qed.

(** [strip] removes a run of whitespace at each end and nothing else, and
    what is left neither begins nor ends with whitespace. *)
Lemma strip_spec (s : pystr) :
  (exists pre post, s = pre ++ strip s ++ post /\ whitespace pre /\ whitespace post)
  /\ no_surrounding_whitespace (strip s).
Proof.
  unfold strip. split.
  - destruct (lstrip_split s) as (pre & Heq & Hpre).
    destruct (rstrip_split (lstrip s)) as (post & Heq' & Hpost).
    exists pre, post. rewrite <- Heq'. auto.
  - split; intros c H.
    + apply rstrip_head in H. apply (lstrip_head s c H).
    + apply (rstrip_last _ c H).
Qed.

Lemma strip_whitespace (s : pystr) : whitespace s <-> strip s = [].
Proof.
  split.
  - intros H. unfold strip. rewrite (lstrip_whitespace s H). reflexivity.
  - intros H. destruct (strip_spec s) as [(pre & post & Heq & Hpre & Hpost) _].
    rewrite H in Heq. rewrite Heq. unfold whitespace in *.
    rewrite Forall_app. auto.
Qed.

(** ** The start command *)

(** The three ways [start_entry] ends. *)
Lemma start_entry_cases (now : datetime) (self : App) :
  (strip (entry_text self) = [] /\
   start_entry now self = (EmptyDescription, self))
  \/ (strip (entry_text self) <> [] /\
      (exists idx, find_open (log_file self) = Some idx) /\
      start_entry now self = (AlreadyRunning, self))
  \/ (strip (entry_text self) <> [] /\
      find_open (log_file self) = None /\
      let entries := log_file self
                     ++ [mkEntry now None (strip (entry_text self))] in
      start_entry now self = (Returned None, mkApp entries entries [])).
Proof.
  unfold start_entry, read_entries.
  destruct (decide (strip (entry_text self) = [])) as [Hs | Hs].
  - left. rewrite bool_decide_eq_true_2 by assumption. auto.
  - right. rewrite bool_decide_eq_false_2 by assumption.
    destruct (find_open (log_file self)) as [idx|] eqn:Hopen.
    + left. eauto.
    + right. auto.
Qed.

(** C10. The start command strips the whitespace around the description it
    is given; when nothing is left (an empty or whitespace-only input) it
    rejects the command and appends nothing; and whenever it does change
    the log, it appends one open entry whose text is the stripped
    description, which is not empty and neither begins nor ends with
    whitespace. *)
Theorem start_entry_description (description : pystr) (now : datetime)
    (self : App) :
  let result := step (Start description now) self in
  (whitespace description -> strip description = []) /\
  (strip description = [] ->
     fst result = EmptyDescription /\ log_file (snd result) = log_file self) /\
  (log_file (snd result) <> log_file self ->
     exists e,
       log_file (snd result) = log_file self ++ [e] /\
       end_ e = None /\
       text e = strip description /\
       text e <> [] /\
       no_surrounding_whitespace (text e) /\
       exists pre post,
         description = pre ++ text e ++ post /\ whitespace pre /\ whitespace post).
Proof.
  simpl. split; [apply strip_whitespace|].
  destruct (start_entry_cases now (entry_text_set description self))
    as [[Hs ->] | [(Hs & _ & ->) | (Hs & _ & ->)]]; simpl in *.
  - split; [auto|]. intros H. congruence.
  - split; [congruence|]. intros H. congruence.
  - split; [congruence|]. intros _.
    exists (mkEntry now None (strip description)). simpl.
    destruct (strip_spec description) as [Hsplit Hns]. auto 10.
Qed.

Lemma start_entry_description_witness :
  let description := [32; 160; 9]%N in
  let self := mkApp [] [] [] in
  strip description = [] /\
  fst (step (Start description 32400) self) = EmptyDescription /\
  log_file (snd (step (Start description 32400) self)) = log_file self.
Proof.
  intros description self.
  assert (H : strip description = []) by reflexivity.
  split; [exact H|].
  exact (proj1 (proj2 (start_entry_description description 32400 self)) H).
Defined.

(** ** Rejected commands *)

(** C9, as the specification has it, fails for a start command whose
    description is blank: with an entry running it is turned down for the
    description, before the log is looked at, not for the running entry. *)
Lemma start_entry_blank_counterexample :
  let running := mkEntry 32400 None [119%N] in
  let self := mkApp [running] [running] [32; 32]%N in
  find_open (log_file self) = Some 0%nat /\
  start_entry 36000 self = (EmptyDescription, self) /\
  fst (start_entry 36000 self) <> AlreadyRunning.
Proof. vm_compute. repeat split; congruence. Qed.

(** C9, amended. A start command issued while an open entry exists leaves
    the application state, and with it the persisted entry list, unchanged;
    it fails with [AlreadyRunning] when its description is not blank (a
    blank one is turned down for the description first).  A stop command
    issued when no open entry exists fails with [NothingRunning] and leaves
    the state and the persisted entry list unchanged. *)
Theorem rejected_commands_keep_log (now : datetime) (self : App) :
  (forall idx, find_open (log_file self) = Some idx ->
     snd (start_entry now self) = self /\
     log_file (snd (start_entry now self)) = log_file self /\
     (strip (entry_text self) <> [] ->
        fst (start_entry now self) = AlreadyRunning) /\
     (strip (entry_text self) = [] ->
        fst (start_entry now self) = EmptyDescription)) /\
  (find_open (log_file self) = None ->
     fst (stop_entry now self) = NothingRunning /\
     snd (stop_entry now self) = self /\
     log_file (snd (stop_entry now self)) = log_file self).
Proof.
  split.
  - intros idx Hopen.
    destruct (start_entry_cases now self)
      as [[Hs ->] | [(Hs & _ & ->) | (_ & Hnone & _)]]; simpl.
    + repeat split; congruence.
    + repeat split; congruence.
    + congruence.
  - intros Hnone. unfold stop_entry, read_entries. rewrite Hnone. auto.
Qed.

Lemma rejected_commands_keep_log_witness :
  let running := mkEntry 32400 None [119%N] in
  let self := mkApp [running] [running] [114; 101; 97; 100]%N in
  find_open (log_file self) = Some 0%nat /\
  strip (entry_text self) <> [] /\
  fst (start_entry 36000 self) = AlreadyRunning /\
  log_file (snd (start_entry 36000 self)) = log_file self /\
  fst (stop_entry 36000 (mkApp [] [] [])) = NothingRunning /\
  log_file (snd (stop_entry 36000 (mkApp [] [] []))) = [].
Proof.
  intros running self.
  assert (Hopen : find_open (log_file self) = Some 0%nat) by reflexivity.
  assert (Htext : strip (entry_text self) <> []) by (vm_compute; congruence).
  destruct (rejected_commands_keep_log 36000 self) as [Hstart _].
  destruct (Hstart 0%nat Hopen) as (_ & Hlog & Hfail & _).
  destruct (rejected_commands_keep_log 36000 (mkApp [] [] [])) as [_ Hstop].
  destruct (Hstop eq_refl) as (Hnr & _ & Hlog').
  repeat split; auto.
Defined.

(** ** The single open entry *)

Lemma open_count_lookup (entries : list Entry) (i : nat) (e : Entry) :
  entries !! i = Some e -> end_ e = None -> (1 <= open_count entries)%nat.
Proof.
  revert i. induction entries as [|x rest IH]; intros i Hl He; [discriminate|].
  rewrite open_count_cons. destruct i as [|i]; simpl in Hl.
  - injection Hl as ->. unfold is_open. rewrite He. lia.
  - specialize (IH i Hl He). lia.
Qed.

Lemma open_count_unique (entries : list Entry) (i j : nat) (ei ej : Entry) :
  (open_count entries <= 1)%nat ->
  entries !! i = Some ei -> end_ ei = None ->
  entries !! j = Some ej -> end_ ej = None ->
  i = j.
Proof.
  revert i j. induction entries as [|x rest IH]; intros i j Hc Hi Hei Hj Hej;
    [discriminate|].
  rewrite open_count_cons in Hc.
  destruct i as [|i], j as [|j]; simpl in Hi, Hj.
  - reflexivity.
  - injection Hi as ->. unfold is_open in Hc. rewrite Hei in Hc.
    pose proof (open_count_lookup rest j ej Hj Hej). lia.
  - injection Hj as ->. unfold is_open in Hc. rewrite Hej in Hc.
    pose proof (open_count_lookup rest i ei Hi Hei). lia.
  - f_equal. apply IH; auto. lia.
Qed.

(** What a command does to the log: a start appends an open entry, and only
    when [find_open] reports none; a stop closes the entry [find_open]
    reports; a rejected command leaves the log as it is. *)
Lemma step_log_file (c : Command) (self : App) :
  log_file (snd (step c self)) = log_file self
  \/ (is_start c = true /\ find_open (log_file self) = None /\
      exists e, end_ e = None /\
        log_file (snd (step c self)) = log_file self ++ [e])
  \/ (is_start c = false /\
      exists idx e t, find_open (log_file self) = Some idx /\
        log_file self !! idx = Some e /\ end_ e = None /\
        log_file (snd (step c self))
        = <[idx := mkEntry (start e) (Some t) (text e)]> (log_file self)).
Proof.
  destruct c as [description now | now]; simpl.
  - destruct (start_entry_cases now (entry_text_set description self))
      as [[_ ->] | [(_ & _ & ->) | (_ & Hnone & ->)]]; simpl in *; auto.
    right. left. repeat split; auto.
    exists (mkEntry now None (strip description)). auto.
  - destruct (find_open (log_file self)) as [idx|] eqn:Hopen.
    + destruct (stop_entry_running now self idx Hopen) as (e & Hl & He & Hstop).
      simpl in Hstop. rewrite Hstop. simpl. right. right.
      split; [reflexivity|]. exists idx, e, (stop_instant now e). auto.
    + left. unfold stop_entry, read_entries. rewrite Hopen. reflexivity.
Qed.

Lemma step_open_count (c : Command) (self : App) :
  (open_count (log_file self) <= 1)%nat ->
  (open_count (log_file (snd (step c self))) <= 1)%nat.
Proof.
  intros Hc.
  destruct (step_log_file c self)
    as [-> | [(_ & Hnone & e & He & ->) | (_ & idx & e & t & _ & Hl & He & ->)]].
  - exact Hc.
  - apply find_open_None in Hnone.
    rewrite open_count_app, Hnone, open_count_cons. unfold is_open.
    rewrite He. unfold open_count. simpl. lia.
  - pose proof (open_count_close (log_file self) idx e t Hl He). lia.
Qed.

Lemma run_snoc (cmds : list Command) (c : Command) (self : App) :
  run (cmds ++ [c]) self = snd (step c (run cmds self)).
Proof. unfold run. rewrite fold_left_app. reflexivity. Qed.

Lemma run_open_count (cmds : list Command) (self : App) :
  (open_count (log_file self) <= 1)%nat ->
  (open_count (log_file (run cmds self)) <= 1)%nat.
Proof.
  intros Hc. induction cmds as [|c cmds IH] using rev_ind.
  - exact Hc.
  - rewrite run_snoc. apply step_open_count, IH.
Qed.

(** C1. From a log with at most one open entry, after every command of a
    non-empty, strictly alternating sequence of start and stop commands
    (that is, after every prefix of the sequence) at most one entry of the
    log has an absent end: any two positions with an absent end coincide,
    and such a position is the one [find_open] returns.  Each command of
    the sequence leaves the log alone, or is a start that appends an open
    entry where [find_open] reported none, or is a stop that closes the
    entry [find_open] reported. *)
Theorem single_open_invariant (self : App) (cmds : list Command) (k : nat) :
  (open_count (log_file self) <= 1)%nat ->
  cmds <> [] ->
  alternating cmds = true ->
  let entries := log_file (run (take k cmds) self) in
  (open_count entries <= 1)%nat /\
  (forall i j ei ej,
     entries !! i = Some ei -> end_ ei = None ->
     entries !! j = Some ej -> end_ ej = None -> i = j) /\
  (forall i e,
     entries !! i = Some e -> end_ e = None -> find_open entries = Some i) /\
  (forall c, cmds !! k = Some c ->
     let after := log_file (run (take (S k) cmds) self) in
     after = entries
     \/ (is_start c = true /\ find_open entries = None /\
         exists e, end_ e = None /\ after = entries ++ [e])
     \/ (is_start c = false /\
         exists idx e t, find_open entries = Some idx /\
           entries !! idx = Some e /\ end_ e = None /\
           after = <[idx := mkEntry (start e) (Some t) (text e)]> entries)).
Proof.
  intros Hc _ _ entries.
  assert (Hinv : (open_count entries <= 1)%nat) by apply run_open_count, Hc.
  split; [exact Hinv|]. split; [|split].
  - intros i j ei ej. apply open_count_unique, Hinv.
  - intros i e Hl He.
    destruct (find_open entries) as [idx|] eqn:Hopen.
    + destruct (find_open_lookup _ _ Hopen) as (e' & Hl' & He').
      f_equal. eapply open_count_unique; eauto.
    + apply find_open_None in Hopen.
      pose proof (open_count_lookup entries i e Hl He). lia.
  - intros c Hk after. subst after entries.
    rewrite (take_S_r cmds k c Hk), run_snoc. apply step_log_file.
Qed.

Lemma single_open_invariant_witness :
  let self := mkApp [mkEntry 0 (Some 600) [97%N]] [] [] in
  let cmds := [Start [119%N] 32400; Stop 34200; Start [32; 114]%N 36000] in
  (open_count (log_file (run (take 3 cmds) self)) <= 1)%nat /\
  find_open (log_file (run (take 3 cmds) self)) = Some 2%nat /\
  find_open (log_file (run (take 2 cmds) self)) = None.
Proof.
  intros self cmds.
  split; [|split; reflexivity].
  refine (proj1 (single_open_invariant self cmds 3 _ _ _));
    [vm_compute; lia | discriminate | reflexivity].
Defined.

(** ** Rendering integers *)

Lemma append_cons (c : ascii) (s t : string) :
  String c s +:+ t = String c (s +:+ t).
Proof. reflexivity. Qed.

Lemma append_assoc (s t u : string) : (s +:+ t) +:+ u = s +:+ t +:+ u.
Proof.
  induction s as [|c s IH]; [reflexivity|].
  rewrite !append_cons, IH. reflexivity.
Qed.

Lemma length_append (s t : string) :
  String.length (s +:+ t) = (String.length s + String.length t)%nat.
Proof.
  induction s as [|c s IH]; [reflexivity|].
  rewrite append_cons. simpl. rewrite IH. reflexivity.
Qed.

Lemma all_digits_append (s t : string) :
  all_digits (s +:+ t) = all_digits s && all_digits t.
Proof.
  induction s as [|c s IH]; [reflexivity|].
  rewrite append_cons. simpl. rewrite IH. apply andb_assoc.
Qed.

Lemma decimal_value_from_append (acc : Z) (s t : string) :
  decimal_value_from acc (s +:+ t)
  = decimal_value_from (decimal_value_from acc s) t.
Proof.
  revert acc. induction s as [|c s IH]; intros acc; [reflexivity|].
  rewrite append_cons. simpl. apply IH.
Qed.

(** Case analysis on a decimal digit. *)
Ltac digit_cases d :=
  let H := fresh in
  assert (H : d = 0 \/ d = 1 \/ d = 2 \/ d = 3 \/ d = 4 \/ d = 5
              \/ d = 6 \/ d = 7 \/ d = 8 \/ d = 9) by lia;
  repeat (destruct H as [H | H]); subst d.

Lemma digit_char_spec (d : Z) :
  0 <= d < 10 ->
  is_digit (digit_char d) = true /\ digit_value (digit_char d) = d /\
  (digit_char d = "0"%char -> d = 0).
Proof.
  intros Hd. digit_cases d; repeat split; try reflexivity; intros [=].
Qed.

Lemma string_of_digits_acc (ds : list Z) (acc : string) :
  fold_left (fun acc d => String (digit_char d) acc) ds acc
  = string_of_digits ds +:+ acc.
Proof.
  unfold string_of_digits. revert acc.
  induction ds as [|d ds IH]; intros acc; [reflexivity|].
  simpl. rewrite IH, (IH (String _ _)), append_assoc. reflexivity.
Qed.

Lemma string_of_digits_cons (d : Z) (ds : list Z) :
  string_of_digits (d :: ds)
  = string_of_digits ds +:+ String (digit_char d) EmptyString.
Proof. unfold string_of_digits at 1. simpl. apply string_of_digits_acc. Qed.

(** Any fuel that bounds the number by a power of two gives the same digits. *)
Lemma digits_lsf_fuel (fuel1 fuel2 : nat) (n : Z) :
  0 <= n < 2 ^ Z.of_nat (S fuel1) -> n < 2 ^ Z.of_nat (S fuel2) ->
  digits_lsf (S fuel1) n = digits_lsf (S fuel2) n.
Proof.
  revert fuel2 n. induction fuel1 as [|fuel1 IH]; intros fuel2 n H1 H2.
  - change (2 ^ Z.of_nat 1) with 2 in H1. simpl.
    destruct (Z.ltb_spec n 10); [reflexivity | lia].
  - cbn [digits_lsf]. destruct (Z.ltb_spec n 10) as [|Hn]; [reflexivity|].
    f_equal. destruct fuel2 as [|fuel2].
    + change (2 ^ Z.of_nat 1) with 2 in H2. lia.
    + rewrite !Nat2Z.inj_succ, !Z.pow_succ_r in H1, H2 by lia.
      pose proof (Z.mul_div_le n 10 ltac:(lia)).
      apply IH; rewrite ?Nat2Z.inj_succ, ?Z.pow_succ_r by lia;
        [split; [apply Z.div_pos|]|]; lia.
Qed.

Lemma log2_fuel (n : Z) :
  0 <= n -> n < 2 ^ Z.of_nat (S (Z.to_nat (Z.log2 n))).
Proof.
  intros Hn. rewrite Nat2Z.inj_succ, Z2Nat.id by apply Z.log2_nonneg.
  destruct (Z.eq_dec n 0) as [-> | Hne]; [reflexivity|].
  apply Z.log2_spec. lia.
Qed.

(** The recursion [decimal] follows. *)
Lemma decimal_unfold (n : Z) :
  0 <= n ->
  decimal n
  = if n <? 10 then String (digit_char n) EmptyString
    else decimal (n / 10) +:+ String (digit_char (n mod 10)) EmptyString.
Proof.
  intros Hn. unfold decimal at 1. cbn [digits_lsf].
  destruct (Z.ltb_spec n 10) as [Hlt | Hge].
  - rewrite Z.mod_small by lia. reflexivity.
  - rewrite string_of_digits_cons. do 2 f_equal.
    pose proof (log2_fuel n Hn) as Hfuel.
    assert (H1 : 1 <= Z.log2 n).
    { change 1 with (Z.log2 2). apply Z.log2_le_mono. lia. }
    destruct (Z.to_nat (Z.log2 n)) as [|fuel] eqn:Hf; [lia|].
    rewrite Nat2Z.inj_succ, Z.pow_succ_r in Hfuel by lia.
    pose proof (Z.mul_div_le n 10 ltac:(lia)).
    assert (0 <= n / 10) by (apply Z.div_pos; lia).
    unfold decimal. f_equal. apply digits_lsf_fuel; [lia|].
    apply log2_fuel. assumption.
Qed.

Lemma decimal_all_digits (n : Z) : 0 <= n -> all_digits (decimal n) = true.
Proof.
  intros Hn. pattern n. apply Zlt_0_ind; [|exact Hn]. clear n Hn.
  intros n IH Hn. rewrite decimal_unfold by exact Hn.
  destruct (Z.ltb_spec n 10) as [Hlt | Hge].
  - simpl. rewrite (proj1 (digit_char_spec n ltac:(lia))). reflexivity.
  - pose proof (Z.mod_pos_bound n 10 ltac:(lia)).
    rewrite all_digits_append, IH. simpl.
    rewrite (proj1 (digit_char_spec (n mod 10) ltac:(lia))). reflexivity.
    split; [apply Z.div_pos; lia | apply Z.div_lt; lia].
Qed.

Lemma decimal_value_decimal (n : Z) : 0 <= n -> decimal_value (decimal n) = n.
Proof.
  intros Hn. pattern n. apply Zlt_0_ind; [|exact Hn]. clear n Hn.
  intros n IH Hn. rewrite decimal_unfold by exact Hn. unfold decimal_value in *.
  destruct (Z.ltb_spec n 10) as [Hlt | Hge].
  - simpl. rewrite (proj1 (proj2 (digit_char_spec n ltac:(lia)))). lia.
  - pose proof (Z.mod_pos_bound n 10 ltac:(lia)).
    rewrite decimal_value_from_append, IH. simpl.
    rewrite (proj1 (proj2 (digit_char_spec (n mod 10) ltac:(lia)))).
    pose proof (Z.div_mod n 10 ltac:(lia)). lia.
    split; [apply Z.div_pos; lia | apply Z.div_lt; lia].
Qed.

(** The first digit is ['0'] for zero only, which is rendered ["0"]. *)
Lemma decimal_head (n : Z) :
  0 <= n ->
  exists c rest, decimal n = String c rest /\
    (c = "0"%char -> n = 0 /\ rest = EmptyString).
Proof.
  intros Hn. pattern n. apply Zlt_0_ind; [|exact Hn]. clear n Hn.
  intros n IH Hn. rewrite decimal_unfold by exact Hn.
  destruct (Z.ltb_spec n 10) as [Hlt | Hge].
  - eexists _, _. split; [reflexivity|]. intros Hc.
    apply (digit_char_spec n ltac:(lia)) in Hc. auto.
  - assert (Hq : 0 <= n / 10 < n)
      by (split; [apply Z.div_pos; lia | apply Z.div_lt; lia]).
    destruct (IH (n / 10) Hq) as (c & rest & -> & Hc).
    rewrite append_cons. eexists _, _. split; [reflexivity|].
    intros Hz. destruct (Hc Hz) as [Hq0 _].
    pose proof (Z.div_mod n 10 ltac:(lia)).
    pose proof (Z.mod_pos_bound n 10 ltac:(lia)). lia.
Qed.

Lemma decimal_unpadded (n : Z) : 0 <= n -> unpadded (decimal n).
Proof.
  intros Hn. split; [apply decimal_all_digits, Hn|].
  destruct (decimal_head n Hn) as (c & rest & Heq & Hc).
  destruct (Ascii.ascii_dec c "0"%char) as [Hz | Hnz].
  - left. destruct (Hc Hz) as [_ ->]. rewrite Heq, Hz. reflexivity.
  - right. eauto.
Qed.

Lemma decimal_length (n : Z) :
  0 <= n ->
  (n < 10 -> String.length (decimal n) = 1%nat) /\
  (10 <= n < 100 -> String.length (decimal n) = 2%nat) /\
  (100 <= n -> (3 <= String.length (decimal n))%nat).
Proof.
  intros Hn.
  assert (Hpos : forall m, 0 <= m -> (1 <= String.length (decimal m))%nat).
  { intros m Hm. destruct (decimal_head m Hm) as (c & rest & -> & _).
    simpl. lia. }
  assert (Hone : forall m, 0 <= m < 10 -> String.length (decimal m) = 1%nat).
  { intros m Hm. rewrite decimal_unfold by lia.
    destruct (Z.ltb_spec m 10); [reflexivity | lia]. }
  assert (Hstep : forall m, 10 <= m ->
            String.length (decimal m) = S (String.length (decimal (m / 10)))).
  { intros m Hm. rewrite (decimal_unfold m) by lia.
    destruct (Z.ltb_spec m 10); [lia|]. rewrite length_append. simpl. lia. }
  split; [intros; apply Hone; lia|]. split.
  - intros H. rewrite Hstep, Hone; [reflexivity | | lia].
    split; [apply Z.div_pos; lia | apply Z.div_lt_upper_bound; lia].
  - intros H. rewrite Hstep by lia.
    assert (10 <= n / 10) by (apply Z.div_le_lower_bound; lia).
    rewrite Hstep by lia.
    assert (0 <= n / 10 / 10) by (apply Z.div_pos; lia).
    specialize (Hpos (n / 10 / 10)). lia.
Qed.

Lemma format_02d_spec (n : Z) :
  0 <= n ->
  all_digits (format_02d n) = true /\
  decimal_value (format_02d n) = n /\
  (n < 100 -> String.length (format_02d n) = 2%nat) /\
  (100 <= n -> format_02d n = decimal n).
Proof.
  intros Hn. unfold format_02d, zfill.
  destruct (Z.ltb_spec n 0) as [|_]; [lia|].
  destruct (decimal_length n Hn) as (H1 & H2 & H3).
  pose proof (decimal_all_digits n Hn) as Hd.
  pose proof (decimal_value_decimal n Hn) as Hv.
  destruct (Z.lt_ge_cases n 10) as [Hlt | Hge].
  - rewrite (H1 Hlt). change (zeros (2 - 1) +:+ decimal n) with (String "0" (decimal n)).
    unfold decimal_value in *.
    cbn [all_digits decimal_value_from String.length].
    rewrite Hd, (H1 Hlt). repeat split; auto; intros; lia.
  - destruct (Z.lt_ge_cases n 100) as [Hlt | Hge'].
    + rewrite (H2 (conj Hge Hlt)). change (zeros (2 - 2) +:+ decimal n) with (decimal n).
      repeat split; auto.
    + specialize (H3 Hge').
      replace (2 - String.length (decimal n))%nat with 0%nat by lia.
      change (zeros 0 +:+ decimal n) with (decimal n).
      repeat split; auto; intros; lia.
Qed.

(** ** The formatters *)

Lemma minutes_of_remainder (d : Z) : d mod 3600 / 60 = d / 60 mod 60.
Proof.
  pose proof (Z.div_mod d 60 ltac:(lia)) as Hd.
  pose proof (Z.mod_pos_bound d 60 ltac:(lia)) as Hr.
  pose proof (Z.div_mod (d / 60) 60 ltac:(lia)) as Hq.
  pose proof (Z.mod_pos_bound (d / 60) 60 ltac:(lia)) as Hm.
  assert (Hmod : d mod 3600 = 60 * (d / 60 mod 60) + d mod 60).
  { symmetry. apply (Z.mod_unique d 3600 (d / 60 / 60)); lia. }
  rewrite Hmod. symmetry.
  apply (Z.div_unique _ 60 _ (d mod 60)); lia.
Qed.

Lemma hours_of_minutes (d : Z) : d / 60 / 60 = d / 3600.
Proof. rewrite Z.div_div by lia. reflexivity. Qed.

(** C8, as the specification has it, fails from 100 hours on: the clock
    form of 100 hours is ["100:00"], whose hours take three digits. *)
Lemma format_hhmm_hours_counterexample :
  format_hhmm (timedelta_hours 100) = "100:00" /\
  ~ (exists hs ms,
       format_hhmm (timedelta_hours 100) = hs +:+ ":" +:+ ms /\
       String.length hs = 2%nat /\ String.length ms = 2%nat).
Proof.
  assert (E : format_hhmm (timedelta_hours 100) = "100:00") by reflexivity.
  split; [exact E|]. rewrite E. intros (hs & ms & H & Hh & _).
  destruct hs as [|a [|b [|c hs]]]; try discriminate Hh.
  rewrite !append_cons in H. discriminate H.
Qed.

(** C8, amended. For a duration [d >= 0], with [hours = d / 3600] and
    [minutes = (d / 60) mod 60] (so that the sub-minute remainder is
    dropped, never rounded up): [format_duration] renders
    [<hours>h<minutes>m] with the hours as a plain numeral, not padded, and
    the minutes on exactly two digits; [format_hhmm] renders
    [<hours>:<minutes>] with the minutes on exactly two digits and the hours
    padded with a zero to two digits when below 100, and as a plain numeral
    of three digits or more from 100 hours on. *)
Theorem format_duration_fields (d : timedelta) :
  0 <= d ->
  let hours := d / 3600 in
  let minutes := d / 60 mod 60 in
  (0 <= hours /\ 0 <= minutes < 60 /\
   60 * (60 * hours + minutes) <= d < 60 * (60 * hours + minutes) + 60) /\
  (exists hs ms,
     format_duration d = hs +:+ "h" +:+ ms +:+ "m" /\
     unpadded hs /\ decimal_value hs = hours /\ two_digits ms minutes) /\
  (exists hs ms,
     format_hhmm d = hs +:+ ":" +:+ ms /\
     all_digits hs = true /\ decimal_value hs = hours /\
     two_digits ms minutes /\
     (hours < 100 -> String.length hs = 2%nat) /\
     (100 <= hours -> unpadded hs /\ (3 <= String.length hs)%nat)).
Proof.
  intros Hd hours minutes.
  assert (Hh : 0 <= hours) by (apply Z.div_pos; lia).
  assert (Hm : 0 <= minutes < 60) by (apply Z.mod_pos_bound; lia).
  destruct (format_02d_spec minutes (proj1 Hm)) as (Mdig & Mval & Mlen & _).
  assert (Mtwo : two_digits (format_02d minutes) minutes).
  { split; [apply Mlen; lia | auto]. }
  split; [|split].
  - split; [exact Hh|]. split; [exact Hm|]. subst hours minutes.
    pose proof (Z.div_mod d 60 ltac:(lia)).
    pose proof (Z.mod_pos_bound d 60 ltac:(lia)).
    pose proof (Z.div_mod (d / 60) 60 ltac:(lia)).
    rewrite <- hours_of_minutes. lia.
  - exists (format_d hours), (format_02d minutes).
    unfold format_duration. cbv zeta. rewrite minutes_of_remainder.
    fold hours minutes. unfold format_d.
    destruct (Z.ltb_spec hours 0) as [|_]; [lia|].
    split; [reflexivity|]. split; [apply decimal_unpadded, Hh|].
    split; [apply decimal_value_decimal, Hh | exact Mtwo].
  - exists (format_02d hours), (format_02d minutes).
    unfold format_hhmm. cbv zeta. rewrite hours_of_minutes.
    fold hours minutes.
    destruct (format_02d_spec hours Hh) as (Hdig & Hval & Hlen & Hbig).
    split; [reflexivity|]. split; [exact Hdig|]. split; [exact Hval|].
    split; [exact Mtwo|]. split; [exact Hlen|].
    intros H100. rewrite (Hbig H100).
    split; [apply decimal_unpadded, Hh | apply (decimal_length hours Hh), H100].
Qed.

Lemma format_duration_fields_witness :
  0 <= 5459 /\
  exists hs ms,
    format_hhmm 5459 = hs +:+ ":" +:+ ms /\
    all_digits hs = true /\ decimal_value hs = 5459 / 3600 /\
    two_digits ms (5459 / 60 mod 60) /\
    (5459 / 3600 < 100 -> String.length hs = 2%nat) /\
    (100 <= 5459 / 3600 -> unpadded hs /\ (3 <= String.length hs)%nat).
Proof.
  assert (H : 0 <= 5459) by lia.
  split; [exact H|].
  exact (proj2 (proj2 (format_duration_fields 5459 H))).
Defined.

(** * Further properties of the code *)

(** ** The day window through the day *)

(** X1. Every instant of the window at which the zone has the same offset
    as at [now] gets the same window: the summary and the list do not drift
    while the day goes on. *)
Theorem today_window_stable (tz : timezone) (now now' : datetime) :
  tz now' = tz now ->
  fst (today_window tz now) <= now' < snd (today_window tz now) ->
  today_window tz now' = today_window tz now.
Proof.
  unfold today_window, astimezone_date, astimezone_tzinfo, combine_min_utc.
  simpl. intros Htz Hin. rewrite Htz.
  assert (Hday : (now' + tz now) / 86400 = (now + tz now) / 86400).
  { symmetry. apply (Z.div_unique_pos _ 86400 _
      (now' + tz now - 86400 * ((now + tz now) / 86400))); lia. }
  rewrite Hday. reflexivity.
Qed.

Lemma today_window_stable_witness :
  today_window spring_forward_zone 1711900000
  = today_window spring_forward_zone 1711886400.
Proof.
  apply today_window_stable; [reflexivity | vm_compute; split; congruence].
Defined.

(** X2. The window of the instant at which a window ends begins exactly
    there and lasts 24 hours, when the zone has the same offset at both
    instants: consecutive windows neither overlap nor leave a gap. *)
Theorem today_window_next (tz : timezone) (now : datetime) :
  let end_local := snd (today_window tz now) in
  tz end_local = tz now ->
  today_window tz end_local = (end_local, end_local + timedelta_days 1).
Proof.
  unfold today_window, astimezone_date, astimezone_tzinfo, combine_min_utc,
    timedelta_days.
  simpl. intros Htz. rewrite Htz.
  replace (86400 * ((now + tz now) / 86400 + 1) - tz now + tz now)
    with (((now + tz now) / 86400 + 1) * 86400) by lia.
  rewrite Z.div_mul by lia. f_equal. lia.
Qed.

Lemma today_window_next_witness :
  today_window (fun _ => 3600) (snd (today_window (fun _ => 3600) 40000))
  = (snd (today_window (fun _ => 3600) 40000),
     snd (today_window (fun _ => 3600) 40000) + timedelta_days 1).
Proof. apply (today_window_next (fun _ => 3600) 40000). reflexivity. Defined.

(** ** The total of a window *)

Lemma sum_timedeltas_le (f g : Entry -> timedelta) (entries : list Entry) :
  (forall e, f e <= g e) ->
  sum_timedeltas (f <$> entries) <= sum_timedeltas (g <$> entries).
Proof.
  intros Hfg. unfold sum_timedeltas.
  induction entries as [|e rest IH]; [reflexivity|].
  rewrite !fmap_cons. cbn [foldr]. specialize (Hfg e). lia.
Qed.

Lemma sum_timedeltas_add (f g : Entry -> timedelta) (entries : list Entry) :
  sum_timedeltas (f <$> entries) + sum_timedeltas (g <$> entries)
  = sum_timedeltas ((fun e => f e + g e) <$> entries).
Proof.
  unfold sum_timedeltas.
  induction entries as [|e rest IH]; [reflexivity|].
  rewrite !fmap_cons. cbn [foldr]. lia.
Qed.

Lemma clipped_length_bounds (now : datetime) (window : datetime * datetime)
    (e : Entry) :
  0 <= clipped_length now window e <= Z.max 0 (snd window - fst window).
Proof.
  unfold clipped_length.
  destruct (Z.ltb_spec 0 (Z.min (end_or e now) (snd window)
                            - Z.max (start e) (fst window))); lia.
Qed.

(** X3. The total of a window is never negative and never more than the
    length of the window for each entry; over an empty or reversed window
    it is zero. *)
Theorem daily_total_bounds (entries : list Entry) (now : datetime)
    (window : datetime * datetime) :
  0 <= daily_total entries now window
  <= Z.of_nat (length entries) * Z.max 0 (snd window - fst window).
Proof.
  rewrite daily_total_sum. unfold sum_timedeltas.
  induction entries as [|e rest IH].
  - simpl. lia.
  - rewrite fmap_cons. cbn [foldr length]. rewrite Nat2Z.inj_succ.
    pose proof (clipped_length_bounds now window e). lia.
Qed.

(** X4. A window cut in two at an instant [b] shares the total between the
    two parts: what an entry that spans [b] does not add to the first
    window it adds to the second. *)
Theorem daily_total_split (entries : list Entry) (now a b c : datetime) :
  a <= b <= c ->
  daily_total entries now (a, b) + daily_total entries now (b, c)
  = daily_total entries now (a, c).
Proof.
  intros Habc. rewrite !daily_total_sum, sum_timedeltas_add.
  f_equal. apply list_fmap_ext. intros _ e _.
  unfold clipped_length. simpl.
  destruct (Z.ltb_spec 0 (Z.min (end_or e now) b - Z.max (start e) a));
    destruct (Z.ltb_spec 0 (Z.min (end_or e now) c - Z.max (start e) b));
    destruct (Z.ltb_spec 0 (Z.min (end_or e now) c - Z.max (start e) a)); lia.
Qed.

Lemma daily_total_split_witness :
  let late := mkEntry 85800 (Some 87600) [119%N] in
  daily_total [late] 90000 (0, 86400) + daily_total [late] 90000 (86400, 172800)
  = daily_total [late] 90000 (0, 172800).
Proof. intros late. apply daily_total_split. lia. Defined.

Lemma end_or_mono (e : Entry) (now now' : datetime) :
  now <= now' -> end_or e now <= end_or e now'.
Proof. unfold end_or. destruct (end_ e); lia. Qed.

(** X5. For a fixed window the total never goes down as the clock
    advances: an open entry adds more, a closed one the same. *)
Theorem daily_total_mono_now (entries : list Entry) (now now' : datetime)
    (window : datetime * datetime) :
  now <= now' ->
  daily_total entries now window <= daily_total entries now' window.
Proof.
  intros Hle. rewrite !daily_total_sum. apply sum_timedeltas_le. intros e.
  pose proof (end_or_mono e now now' Hle). unfold clipped_length.
  destruct (Z.ltb_spec 0 (Z.min (end_or e now) (snd window)
                            - Z.max (start e) (fst window)));
    destruct (Z.ltb_spec 0 (Z.min (end_or e now') (snd window)
                              - Z.max (start e) (fst window))); lia.
Qed.

Lemma daily_total_mono_now_witness :
  daily_total [mkEntry 32400 None [119%N]] 34200 (0, 86400)
  <= daily_total [mkEntry 32400 None [119%N]] 36000 (0, 86400).
Proof. apply daily_total_mono_now. lia. Defined.

(** ** Logs written with an advancing clock *)

Lemma chronological_upto (from : datetime) (entries : list Entry)
    (upto upto' : datetime) :
  upto <= upto' -> chronological from entries upto ->
  chronological from entries upto'.
Proof.
  intros Hle. revert from. induction entries as [|e rest IH]; intros from; simpl.
  - lia.
  - intros [Hfrom He]. split; [exact Hfrom|].
    destruct (end_ e) as [t|].
    + destruct He as [Hlt Hrest]. split; [exact Hlt | apply IH, Hrest].
    + destruct He as [Hnil Hs]. split; [exact Hnil | lia].
Qed.

(** Appending an open entry to a log without one. *)
Lemma chronological_append (from : datetime) (entries : list Entry)
    (upto now : datetime) (description : pystr) :
  chronological from entries upto -> find_open entries = None -> upto <= now ->
  chronological from (entries ++ [mkEntry now None description]) now.
Proof.
  revert from. induction entries as [|e rest IH]; intros from; simpl.
  - intros Hfrom _ Hle. repeat split; lia.
  - intros [Hfrom He] Hopen Hle. split; [exact Hfrom|].
    destruct (end_ e) as [t|]; [|discriminate].
    destruct He as [Hlt Hrest]. split; [exact Hlt|].
    apply IH; [exact Hrest | | exact Hle].
    destruct (find_open rest); [discriminate | reflexivity].
Qed.

(** Closing the open entry of a log later than every instant in it. *)
Lemma chronological_close (from : datetime) (entries : list Entry)
    (upto now : datetime) (idx : nat) (e : Entry) :
  chronological from entries upto -> entries !! idx = Some e ->
  end_ e = None -> upto < now ->
  chronological from
    (<[idx := mkEntry (start e) (Some (stop_instant now e)) (text e)]> entries)
    now.
Proof.
  revert from idx. induction entries as [|x rest IH]; intros from idx; simpl.
  - discriminate.
  - intros [Hfrom Hx] Hl He Hlt. destruct idx as [|idx]; simpl in *.
    + injection Hl as ->. rewrite He in Hx. destruct Hx as [-> Hs].
      assert (Hstop : stop_instant now e = now).
      { unfold stop_instant. destruct (Z.leb_spec now (start e)); [lia | reflexivity]. }
      rewrite Hstop. simpl. repeat split; lia.
    + split; [exact Hfrom|]. destruct (end_ x) as [t|].
      * destruct Hx as [Hxt Hrest]. split; [exact Hxt|].
        apply IH; assumption.
      * destruct Hx as [-> _]. discriminate.
Qed.

Lemma step_chronological (from upto : datetime) (c : Command) (self : App) :
  chronological from (log_file self) upto -> upto < command_now c ->
  chronological from (log_file (snd (step c self))) (command_now c).
Proof.
  intros Hchr Hlt. destruct c as [description now | now]; simpl in *.
  - destruct (start_entry_cases now (entry_text_set description self))
      as [[_ ->] | [(_ & _ & ->) | (_ & Hnone & ->)]]; simpl in *.
    + apply (chronological_upto _ _ upto); [lia | exact Hchr].
    + apply (chronological_upto _ _ upto); [lia | exact Hchr].
    + apply (chronological_append _ _ upto); [assumption | assumption | lia].
  - destruct (find_open (log_file self)) as [idx|] eqn:Hopen.
    + destruct (stop_entry_running now self idx Hopen) as (e & Hl & He & Hstop).
      simpl in Hstop. rewrite Hstop. simpl.
      apply (chronological_close _ _ upto); assumption.
    + unfold stop_entry, read_entries. rewrite Hopen. simpl.
      apply (chronological_upto _ _ upto); [lia | exact Hchr].
Qed.

(** X6. Take a log whose entries follow one another in time, none beginning
    before its predecessor ended, every closed entry ending after it
    started, only the last one possibly open, and every instant in it at or
    before [upto].  Commands that read the clock strictly later than [upto]
    and each strictly later than the one before leave a log of the same
    kind, with every instant in it at or before the last clock reading. *)
Theorem run_chronological (from upto : datetime) (cmds : list Command)
    (self : App) :
  chronological from (log_file self) upto ->
  advancing upto cmds ->
  chronological from (log_file (run cmds self)) (last_now upto cmds).
Proof.
  revert upto self. induction cmds as [|c cmds IH]; intros upto self Hchr Hadv.
  - exact Hchr.
  - destruct Hadv as [Hlt Hadv]. unfold run, last_now. simpl.
    apply IH; [|exact Hadv]. apply (step_chronological from upto); assumption.
Qed.

Lemma run_chronological_witness :
  chronological 0
    (log_file (run [Start [119%N] 32400; Stop 34200; Start [114%N] 34201]
                 (mkApp [] [] [])))
    34201.
Proof.
  apply (run_chronological 0 0
           [Start [119%N] 32400; Stop 34200; Start [114%N] 34201]
           (mkApp [] [] [])).
  - simpl. lia.
  - simpl. repeat split; lia.
Defined.

Lemma chronological_total (from : datetime) (entries : list Entry)
    (upto now : datetime) (window : datetime * datetime) :
  chronological from entries upto ->
  sum_timedeltas (clipped_length now window <$> entries)
  <= Z.max 0 (snd window - Z.max from (fst window)).
Proof.
  revert from. unfold sum_timedeltas.
  induction entries as [|e rest IH]; intros from Hchr.
  - simpl. lia.
  - rewrite fmap_cons. cbn [foldr]. simpl in Hchr. destruct Hchr as [Hfrom He].
    unfold clipped_length at 1. unfold end_or.
    destruct (end_ e) as [t|].
    + destruct He as [Hlt Hrest]. specialize (IH t Hrest).
      destruct (Z.ltb_spec 0 (Z.min t (snd window)
                                - Z.max (start e) (fst window))); lia.
    + destruct He as [-> _]. simpl.
      destruct (Z.ltb_spec 0 (Z.min now (snd window)
                                - Z.max (start e) (fst window))); lia.
Qed.

(** X7. The total of a log in time order is at most the length of the
    window, whatever the number of entries: entries that do not overlap are
    not counted twice. *)
Theorem daily_total_chronological (from : datetime) (entries : list Entry)
    (upto now : datetime) (window : datetime * datetime) :
  chronological from entries upto ->
  daily_total entries now window <= Z.max 0 (snd window - fst window).
Proof.
  intros Hchr. rewrite daily_total_sum.
  pose proof (chronological_total from entries upto now window Hchr). lia.
Qed.

Lemma daily_total_chronological_witness :
  daily_total [mkEntry 0 (Some 50000) [97%N]; mkEntry 50000 None [98%N]]
    200000 (0, 86400)
  <= Z.max 0 (snd (0, 86400) - fst (0, 86400)).
Proof.
  apply (daily_total_chronological 0 _ 60000). simpl. repeat split; lia.
Defined.

(** X8. With an advancing clock, from an empty log, the worked time that
    [render_summary] shows for the day is between 0 and 24 hours at every
    later reading of the clock, in every zone. *)
Theorem advancing_total_within_day (tz : timezone) (cmds : list Command)
    (t0 now : datetime) (description : pystr) :
  advancing t0 cmds ->
  let entries := log_file (run cmds (mkApp [] [] description)) in
  0 <= daily_total entries now (today_window tz now) <= timedelta_hours 24.
Proof.
  intros Hadv entries. split; [apply daily_total_bounds|].
  assert (Hchr : chronological t0 entries (last_now t0 cmds)).
  { apply run_chronological; [simpl; lia | exact Hadv]. }
  pose proof (daily_total_chronological _ _ _ now (today_window tz now) Hchr) as H.
  assert (Hlen : snd (today_window tz now) - fst (today_window tz now) = 86400)
    by (unfold today_window, combine_min_utc; simpl; lia).
  rewrite Hlen in H. unfold timedelta_hours. lia.
Qed.

Lemma advancing_total_within_day_witness :
  0 <= daily_total
         (log_file (run [Start [119%N] 32400; Stop 34200] (mkApp [] [] [])))
         40000 (today_window (fun _ => 3600) 40000)
  <= timedelta_hours 24.
Proof.
  apply (advancing_total_within_day (fun _ => 3600)
           [Start [119%N] 32400; Stop 34200] 0 40000 []).
  simpl. repeat split; lia.
Defined.

(** ** What the commands keep *)

Lemma step_keeps (c : Command) (self : App) :
  (length (log_file self) <= length (log_file (snd (step c self))))%nat /\
  forall i e, log_file self !! i = Some e ->
    exists e', log_file (snd (step c self)) !! i = Some e' /\
      start e' = start e /\ text e' = text e /\
      (forall t, end_ e = Some t -> end_ e' = Some t).
Proof.
  destruct (step_log_file c self)
    as [-> | [(_ & _ & x & _ & ->) | (_ & idx & x & t & _ & Hl & Hx & ->)]].
  - split; [lia|]. intros i e Hi. exists e. auto.
  - split; [rewrite length_app; lia|]. intros i e Hi. exists e.
    split; [apply lookup_app_l_Some, Hi | auto].
  - split; [rewrite length_insert; lia|]. intros i e Hi.
    destruct (decide (i = idx)) as [-> | Hne].
    + rewrite Hl in Hi. injection Hi as <-.
      eexists. split;
        [apply list_lookup_insert_eq; eapply lookup_lt_Some; eassumption|].
      simpl. repeat split. intros t' Ht'. congruence.
    + exists e. rewrite list_lookup_insert_ne by congruence. auto.
Qed.

(** X9. The commands only ever append to the log and close entries: after
    any sequence of commands every entry of the earlier log is still at its
    position with the same start and text, and an entry that was closed is
    closed at the same instant; nothing is removed, moved or reopened. *)
Theorem run_append_only (cmds : list Command) (self : App) :
  (length (log_file self) <= length (log_file (run cmds self)))%nat /\
  forall i e, log_file self !! i = Some e ->
    exists e', log_file (run cmds self) !! i = Some e' /\
      start e' = start e /\ text e' = text e /\
      (forall t, end_ e = Some t -> end_ e' = Some t).
Proof.
  induction cmds as [|c cmds [IHlen IH]] using rev_ind.
  - split; [reflexivity|]. intros i e Hi. exists e. auto.
  - rewrite run_snoc. destruct (step_keeps c (run cmds self)) as [Hlen Hkeep].
    split; [lia|]. intros i e Hi.
    destruct (IH i e Hi) as (e1 & H1 & Hs1 & Ht1 & He1).
    destruct (Hkeep i e1 H1) as (e2 & H2 & Hs2 & Ht2 & He2).
    exists e2. repeat split; try congruence. auto.
Qed.

Lemma run_append_only_witness :
  let self := mkApp [mkEntry 0 (Some 600) [97%N]] [] [] in
  exists e', log_file (run [Start [119%N] 32400; Stop 34200] self) !! 0%nat
             = Some e' /\
    start e' = 0 /\ text e' = [97%N] /\
    (forall t, Some 600 = Some t -> end_ e' = Some t).
Proof.
  intros self.
  apply (proj2 (run_append_only [Start [119%N] 32400; Stop 34200] self)
           0%nat (mkEntry 0 (Some 600) [97%N])).
  reflexivity.
Defined.

(** ** Commands in sequence *)

Lemma find_open_app (l1 l2 : list Entry) :
  find_open l1 = None ->
  find_open (l1 ++ l2) = (fun k => (length l1 + k)%nat) <$> find_open l2.
Proof.
  induction l1 as [|e rest IH]; simpl.
  - intros _. destruct (find_open l2); reflexivity.
  - destruct (end_ e); [|discriminate]. intros Hnone.
    destruct (find_open rest) eqn:Hrest; [discriminate|].
    rewrite IH by reflexivity. destruct (find_open l2); reflexivity.
Qed.

(** X10. A start with a description that is not blank, on a log without an
    open entry, followed at once by a stop, appends exactly one closed
    entry: it starts at the first clock reading, ends at the second (or one
    minute after the start when the second is not later), and carries the
    stripped description.  The log is again without an open entry,
    [self.entries] is the log, and the description field is empty. *)
Theorem start_then_stop (description : pystr) (t1 t2 : datetime) (self : App) :
  strip description <> [] ->
  find_open (log_file self) = None ->
  let app := run [Start description t1; Stop t2] self in
  log_file app
  = log_file self
    ++ [mkEntry t1 (Some (if t2 <=? t1 then t1 + timedelta_minutes 1 else t2))
          (strip description)] /\
  find_open (log_file app) = None /\
  self_entries app = log_file app /\
  entry_text app = [].
Proof.
  intros Htext Hnone. unfold run. simpl.
  destruct (start_entry_cases t1 (entry_text_set description self))
    as [[Hs _] | [(_ & [idx Hidx] & _) | (_ & _ & ->)]]; simpl in *;
    [congruence | congruence |].
  set (opened := mkEntry t1 None (strip description)).
  assert (Hopen : find_open (log_file self ++ [opened])
                  = Some (length (log_file self))).
  { rewrite find_open_app by exact Hnone. simpl. f_equal. lia. }
  unfold stop_entry, read_entries. simpl. rewrite Hopen.
  rewrite list_lookup_middle by reflexivity. simpl.
  rewrite insert_app_r_alt by lia. rewrite Nat.sub_diag. simpl.
  repeat split. rewrite find_open_app by exact Hnone. reflexivity.
Qed.

Lemma start_then_stop_witness :
  log_file (run [Start [32; 119; 32]%N 32400; Stop 32400] (mkApp [] [] []))
  = [] ++ [mkEntry 32400
             (Some (if 32400 <=? 32400 then 32400 + timedelta_minutes 1 else 32400))
             (strip [32; 119; 32]%N)].
Proof.
  refine (proj1 (start_then_stop [32; 119; 32]%N 32400 32400 (mkApp [] [] []) _ _));
    [vm_compute; congruence | reflexivity].
Defined.

(** X11. The second of two starts in a row, both with a description that
    is not blank, is always turned down with [AlreadyRunning] and changes
    nothing, whatever the log was; and on a log with at most one open entry
    the second of two stops in a row is always turned down with
    [NothingRunning] and changes nothing. *)
Theorem repeated_command_rejected (self : App) :
  (forall d1 d2 t1 t2,
     strip d1 <> [] -> strip d2 <> [] ->
     let once := snd (step (Start d1 t1) self) in
     fst (step (Start d2 t2) once) = AlreadyRunning /\
     log_file (snd (step (Start d2 t2) once)) = log_file once) /\
  (forall t1 t2,
     (open_count (log_file self) <= 1)%nat ->
     let once := snd (step (Stop t1) self) in
     step (Stop t2) once = (NothingRunning, once)).
Proof.
  split.
  - intros d1 d2 t1 t2 H1 H2 once.
    assert (Hopen : exists idx, find_open (log_file once) = Some idx).
    { subst once. simpl.
      destruct (start_entry_cases t1 (entry_text_set d1 self))
        as [[Hs _] | [(_ & Hidx & ->) | (_ & Hnone & ->)]]; simpl in *.
      - congruence.
      - exact Hidx.
      - rewrite find_open_app by exact Hnone. simpl. eauto. }
    destruct Hopen as [idx Hopen]. simpl.
    destruct (start_entry_cases t2 (entry_text_set d2 once))
      as [[Hs _] | [(_ & _ & ->) | (_ & Hnone & _)]]; simpl in *.
    + congruence.
    + auto.
    + congruence.
  - intros t1 t2 Hc once.
    assert (Hnone : find_open (log_file once) = None).
    { subst once. simpl. apply find_open_None.
      destruct (find_open (log_file self)) as [idx|] eqn:Hopen.
      - destruct (stop_entry_running t1 self idx Hopen) as (e & Hl & He & Hstop).
        simpl in Hstop. rewrite Hstop. simpl.
        pose proof (open_count_close (log_file self) idx e
                      (stop_instant t1 e) Hl He). lia.
      - unfold stop_entry, read_entries. rewrite Hopen. simpl.
        apply find_open_None, Hopen. }
    simpl. unfold stop_entry, read_entries. rewrite Hnone. reflexivity.
Qed.

Lemma repeated_command_rejected_witness :
  let self := mkApp [mkEntry 32400 None [119%N]] [] [] in
  step (Stop 36000) (snd (step (Stop 34200) self))
  = (NothingRunning, snd (step (Stop 34200) self)) /\
  fst (step (Start [98%N] 36000) (snd (step (Start [97%N] 34200) (mkApp [] [] []))))
  = AlreadyRunning.
Proof.
  intros self. split.
  - apply (proj2 (repeated_command_rejected self) 34200 36000).
    vm_compute. lia.
  - apply (proj1 (repeated_command_rejected (mkApp [] [] []))
             [97%N] [98%N] 34200 36000); vm_compute; congruence.
Defined.

(** X12. On any log with an open entry, even one that holds several,
    [stop_entry] succeeds without raising: it closes the first open entry,
    every entry before it being closed already, leaves all other positions
    as they are, and so lowers the number of open entries by exactly one. *)
Theorem stop_entry_closes_first (now : datetime) (self : App) :
  open_count (log_file self) <> 0%nat ->
  exists idx e,
    log_file self !! idx = Some e /\ end_ e = None /\
    (forall j e', (j < idx)%nat -> log_file self !! j = Some e' ->
       end_ e' <> None) /\
    stop_entry now self
    = (Returned None,
       let entries :=
         <[idx := mkEntry (start e) (Some (stop_instant now e)) (text e)]>
           (log_file self) in
       mkApp entries entries (entry_text self)) /\
    S (open_count (log_file (snd (stop_entry now self))))
    = open_count (log_file self).
Proof.
  intros Hc. destruct (find_open (log_file self)) as [idx|] eqn:Hopen.
  - destruct (stop_entry_running now self idx Hopen) as (e & Hl & He & Hstop).
    exists idx, e. split; [exact Hl|]. split; [exact He|]. split; [|split].
    + intros j e' Hj Hl' He'.
      pose proof (find_open_first _ _ _ _ Hopen Hl' He'). lia.
    + exact Hstop.
    + simpl in Hstop. rewrite Hstop. simpl. apply open_count_close; assumption.
  - apply find_open_None in Hopen. contradiction.
Qed.

Lemma stop_entry_closes_first_witness :
  let self := mkApp [mkEntry 0 (Some 600) [97%N]; mkEntry 700 None [98%N];
                     mkEntry 800 None [99%N]] [] [] in
  open_count (log_file self) = 2%nat /\
  open_count (log_file (snd (stop_entry 900 self))) = 1%nat.
Proof.
  intros self. split; [reflexivity|].
  destruct (stop_entry_closes_first 900 self) as (idx & e & _ & _ & _ & _ & H);
    [vm_compute; congruence|].
  change (open_count (log_file self)) with 2%nat in H. congruence.
Defined.

(** ** Stopping and the total *)

(** X13. Stopping the running entry does not change the total of a window
    read at the same clock reading when that reading is later than the
    entry's start; when it is not, the entry is closed one minute after its
    start and the total grows by at most that minute. *)
Theorem stop_entry_total (now : datetime) (self : App)
    (window : datetime * datetime) (idx : nat) (e : Entry) :
  find_open (log_file self) = Some idx ->
  log_file self !! idx = Some e ->
  let before := daily_total (log_file self) now window in
  let after := daily_total (log_file (snd (stop_entry now self))) now window in
  before <= after <= before + timedelta_minutes 1 /\
  (start e < now -> after = before).
Proof.
  intros Hopen Hl before after. subst before after.
  destruct (stop_entry_running now self idx Hopen) as (e' & Hl' & He & Hstop).
  rewrite Hl in Hl'. injection Hl' as <-. simpl in Hstop. rewrite Hstop. simpl.
  rewrite insert_take_drop by (eapply lookup_lt_Some; eassumption).
  remember (take idx (log_file self)) as l1 eqn:Hl1.
  remember (drop (S idx) (log_file self)) as l2 eqn:Hl2.
  assert (Hmid : log_file self = l1 ++ e :: l2)
    by (subst l1 l2; symmetry; apply take_drop_middle, Hl).
  rewrite Hmid, !daily_total_insert.
  unfold clipped_length, end_or, stop_instant, timedelta_minutes. simpl.
  rewrite He.
  destruct (Z.leb_spec now (start e));
    destruct (Z.ltb_spec 0 (Z.min now (snd window)
                              - Z.max (start e) (fst window)));
    try destruct (Z.ltb_spec 0 (Z.min (start e + 60 * 1) (snd window)
                                  - Z.max (start e) (fst window))); lia.
Qed.

Lemma stop_entry_total_witness :
  let self := mkApp [mkEntry 32400 None [119%N]] [] [] in
  daily_total (log_file (snd (stop_entry 34200 self))) 34200 (0, 86400)
  = daily_total (log_file self) 34200 (0, 86400).
Proof.
  intros self.
  refine (proj2 (stop_entry_total 34200 self (0, 86400) 0%nat
                   (mkEntry 32400 None [119%N]) _ _) _);
    [reflexivity | reflexivity | simpl; lia].
Defined.

(** ** Negative durations *)

Lemma format_negative_hours (hours : Z) :
  hours < 0 ->
  negative_numeral (format_d hours) hours /\ format_02d hours = format_d hours.
Proof.
  intros Hneg. unfold format_d, format_02d, zfill.
  destruct (Z.ltb_spec hours 0) as [_|]; [|lia].
  assert (Hpos : 0 <= - hours) by lia.
  destruct (decimal_head (- hours) Hpos) as (c & rest & Heq & _).
  split.
  - exists (decimal (- hours)). split; [reflexivity|].
    split; [apply decimal_unpadded, Hpos | apply decimal_value_decimal, Hpos].
  - rewrite Heq. reflexivity.
Qed.

(** X14. On a negative duration of a whole number of seconds, such as the
    elapsed time of an entry whose start is later than the clock reading,
    the hours are rendered rounded down, behind a minus sign and not
    padded, and the minutes counted up from there on two digits: the text
    [-<h>h<mm>m] or [-<h>:<mm>] stands for [-h] hours plus [mm] minutes, so
    that one second below zero reads [-1h59m] and [-1:59].  (On whole
    seconds [int(delta.total_seconds())] is the number of seconds itself;
    durations with a fraction of a second are outside this statement.) *)
Theorem formatters_negative (d : timedelta) :
  d < 0 ->
  let hours := d / 3600 in
  let minutes := d / 60 mod 60 in
  (hours < 0 /\ 0 <= minutes < 60 /\
   60 * (60 * hours + minutes) <= d < 60 * (60 * hours + minutes) + 60) /\
  (exists hs ms,
     format_duration d = hs +:+ "h" +:+ ms +:+ "m" /\
     negative_numeral hs hours /\ two_digits ms minutes) /\
  (exists hs ms,
     format_hhmm d = hs +:+ ":" +:+ ms /\
     negative_numeral hs hours /\ two_digits ms minutes).
Proof.
  intros Hd hours minutes.
  assert (Hh : hours < 0) by (apply Z.div_lt_upper_bound; lia).
  assert (Hm : 0 <= minutes < 60) by (apply Z.mod_pos_bound; lia).
  destruct (format_02d_spec minutes (proj1 Hm)) as (Mdig & Mval & Mlen & _).
  assert (Mtwo : two_digits (format_02d minutes) minutes).
  { split; [apply Mlen; lia | auto]. }
  destruct (format_negative_hours hours Hh) as [Hnum Hsame].
  split; [|split].
  - split; [exact Hh|]. split; [exact Hm|]. subst hours minutes.
    pose proof (Z.div_mod d 60 ltac:(lia)).
    pose proof (Z.mod_pos_bound d 60 ltac:(lia)).
    pose proof (Z.div_mod (d / 60) 60 ltac:(lia)).
    rewrite <- hours_of_minutes. lia.
  - exists (format_d hours), (format_02d minutes).
    unfold format_duration. cbv zeta. rewrite minutes_of_remainder.
    fold hours minutes. auto.
  - exists (format_d hours), (format_02d minutes).
    unfold format_hhmm. cbv zeta. rewrite hours_of_minutes.
    fold hours minutes. rewrite Hsame. auto.
Qed.

Lemma formatters_negative_witness :
  -1 < 0 /\
  exists hs ms,
    format_duration (-1) = hs +:+ "h" +:+ ms +:+ "m" /\
    negative_numeral hs (-1 / 3600) /\ two_digits ms (-1 / 60 mod 60).
Proof.
  assert (H : -1 < 0) by lia.
  split; [exact H|].
  exact (proj1 (proj2 (formatters_negative (-1) H))).
Defined.

(** ** Naive and aware values *)

(** X15. [to_utc] always returns a value in UTC; a naive value keeps its
    wall-clock reading, that is, it is taken to be in UTC already; an aware
    value keeps the instant it denotes; and converting twice is converting
    once. *)
Theorem to_utc_value (value : Wall.stamp) :
  Wall.utcoffset (Wall.to_utc value) = Some 0 /\
  Wall.to_utc (Wall.to_utc value) = Wall.to_utc value /\
  (Wall.utcoffset value = None ->
     Wall.wall (Wall.to_utc value) = Wall.wall value) /\
  (forall t, Wall.instant value = Some t ->
     Wall.instant (Wall.to_utc value) = Some (to_utc t) /\
     Wall.wall (Wall.to_utc value) = t).
Proof.
  destruct value as [w [offset|]];
    unfold Wall.to_utc, Wall.astimezone_utc, Wall.replace_utc, Wall.instant,
      to_utc; simpl.
  - split; [reflexivity|]. split; [f_equal; lia|]. split; [discriminate|].
    intros t [= <-]. split; [f_equal; lia | reflexivity].
  - split; [reflexivity|]. split; [f_equal; lia|]. split; [intros _; lia|].
    discriminate.
Qed.

Lemma to_utc_value_witness :
  Wall.instant (Wall.to_utc (Wall.mkStamp 39600 (Some 7200))) = Some (to_utc 32400)
  /\ Wall.wall (Wall.to_utc (Wall.mkStamp 39600 (Some 7200))) = 32400.
Proof.
  apply (proj2 (proj2 (proj2 (to_utc_value (Wall.mkStamp 39600 (Some 7200)))))).
  reflexivity.
Defined.

(** ** The lines of the list *)

Lemma length_pystr_of_string (s : string) :
  length (pystr_of_string s) = String.length s.
Proof.
  unfold pystr_of_string. rewrite length_fmap.
  induction s as [|c s IH]; simpl; [reflexivity | rewrite IH; reflexivity].
Qed.

Lemma length_spaces (k : nat) : String.length (spaces k) = k.
Proof. induction k as [|k IH]; simpl; [reflexivity | rewrite IH; reflexivity]. Qed.

Lemma length_rjust (width : nat) (s : string) :
  (String.length s <= width)%nat -> String.length (rjust width s) = width.
Proof. intros H. unfold rjust. rewrite length_append, length_spaces. lia. Qed.

Lemma length_strftime_HM (wall : Z) : String.length (strftime_HM wall) = 5%nat.
Proof.
  unfold strftime_HM. cbv zeta.
  pose proof (Z.mod_pos_bound wall 86400 ltac:(lia)) as Hd.
  pose proof (Z.mod_pos_bound wall 3600 ltac:(lia)) as Hh.
  assert (H1 : 0 <= wall mod 86400 / 3600 < 24).
  { split; [apply Z.div_pos; lia | apply Z.div_lt_upper_bound; lia]. }
  assert (H2 : 0 <= wall mod 3600 / 60 < 60).
  { split; [apply Z.div_pos; lia | apply Z.div_lt_upper_bound; lia]. }
  destruct (format_02d_spec _ (proj1 H1)) as (_ & _ & L1 & _).
  destruct (format_02d_spec _ (proj1 H2)) as (_ & _ & L2 & _).
  rewrite !length_append, L1, L2 by lia. reflexivity.
Qed.

Lemma length_format_duration (d : timedelta) :
  0 <= d < timedelta_hours 100 ->
  (5 <= String.length (format_duration d) <= 6)%nat.
Proof.
  unfold timedelta_hours. intros Hd. unfold format_duration. cbv zeta.
  assert (Hh : 0 <= d / 3600 < 100).
  { split; [apply Z.div_pos; lia | apply Z.div_lt_upper_bound; lia]. }
  pose proof (Z.mod_pos_bound d 3600 ltac:(lia)) as Hr.
  assert (Hm : 0 <= d mod 3600 / 60 < 60).
  { split; [apply Z.div_pos; lia | apply Z.div_lt_upper_bound; lia]. }
  destruct (format_02d_spec _ (proj1 Hm)) as (_ & _ & Lm & _).
  unfold format_d. destruct (Z.ltb_spec (d / 3600) 0) as [|_]; [lia|].
  destruct (decimal_length (d / 3600) (proj1 Hh)) as (L1 & L2 & _).
  rewrite !length_append, Lm by lia. simpl.
  destruct (Z.lt_ge_cases (d / 3600) 10) as [Hlt | Hge].
  - rewrite (L1 Hlt). lia.
  - rewrite (L2 (conj Hge (proj2 Hh))). lia.
Qed.

(** X16. In a line of the list the description begins at a fixed column
    whenever the duration shown is between 0 and 100 hours: after 23
    characters for a closed entry and after 19 for the open one, whose end
    is shown as a single ellipsis. *)
Theorem format_entry_line_columns (entry : Entry) (now : datetime) (tzinfo : Z) :
  0 <= duration entry now < timedelta_hours 100 ->
  drop (if is_open entry then 19 else 23) (format_entry_line entry now tzinfo)
  = text entry.
Proof.
  intros Hd. unfold format_entry_line. cbv zeta.
  pose proof (length_format_duration _ Hd) as Hlen.
  set (head := pystr_of_string
                 (strftime_HM (astimezone_wall (start entry) tzinfo) +:+ " - ")).
  set (tail := pystr_of_string
                 ("  " +:+ rjust 6 (format_duration (duration entry now)) +:+ "  ")).
  assert (Hhead : length head = 8%nat).
  { subst head. rewrite length_pystr_of_string, length_append,
      length_strftime_HM. reflexivity. }
  assert (Htail : length tail = 10%nat).
  { subst tail. rewrite length_pystr_of_string, !length_append,
      length_rjust by lia. reflexivity. }
  unfold is_open. destruct (end_ entry) as [t|].
  - set (label := pystr_of_string _).
    assert (Hlabel : length label = 5%nat)
      by (subst label; rewrite length_pystr_of_string; apply length_strftime_HM).
    rewrite !app_assoc. apply drop_app_length'.
    rewrite !length_app, Hhead, Hlabel, Htail. reflexivity.
  - rewrite !app_assoc. apply drop_app_length'.
    rewrite !length_app, Hhead, Htail. reflexivity.
Qed.

Lemma format_entry_line_columns_witness :
  drop 23 (format_entry_line
             (mkEntry 32400 (Some 34200) (pystr_of_string "writing")) 36000 3600)
  = pystr_of_string "writing".
Proof.
  apply (format_entry_line_columns
           (mkEntry 32400 (Some 34200) (pystr_of_string "writing")) 36000 3600).
  vm_compute. split; congruence.
Defined.

Lemma render_today_fold (now : datetime) (tzinfo : Z)
    (window : datetime * datetime) (entries : list Entry) (listbox : list pystr) :
  fold_left
    (fun listbox entry =>
       let entry_end := end_or entry now in
       if (snd window <=? start entry) || (entry_end <=? fst window)
       then listbox
       else listbox ++ [format_entry_line entry now tzinfo])
    entries listbox
  = listbox
    ++ ((fun e => format_entry_line e now tzinfo)
          <$> filter (fun e => listed now window e = true) entries).
Proof.
  revert listbox. induction entries as [|e rest IH]; intros listbox.
  - simpl. rewrite app_nil_r. reflexivity.
  - cbn [fold_left]. rewrite IH, filter_cons. cbv zeta.
    destruct (decide (listed now window e = true)) as [Hl | Hl];
      unfold listed in Hl;
      destruct ((snd window <=? start e) || (end_or e now <=? fst window));
      simpl in Hl; try congruence.
    rewrite fmap_cons, <- app_assoc. reflexivity.
Qed.

Lemma render_today_filter (tz : timezone) (entries : list Entry) (now : datetime) :
  render_today tz entries now
  = (fun e => format_entry_line e now (tz now))
      <$> filter (fun e => listed now (today_window tz now) e = true) entries.
Proof.
  unfold render_today, astimezone_tzinfo.
  destruct (today_window tz now) as [start_local end_local] eqn:Hw.
  apply (render_today_fold now (tz now) (start_local, end_local) entries []).
Qed.

(** X17. The list of today's entries and today's total agree: the list
    shows, in the order of the log, the entries that meet the window, each
    entry that adds to the total has its line in the list, and a listed
    entry adds to the total exactly when its end (or the clock reading, for
    the open one) is later than its start. *)
Theorem render_today_counted (tz : timezone) (entries : list Entry)
    (now : datetime) :
  let window := today_window tz now in
  render_today tz entries now
  = (fun e => format_entry_line e now (tz now))
      <$> filter (fun e => listed now window e = true) entries /\
  (length (render_today tz entries now) <= length entries)%nat /\
  (forall e, e ∈ entries -> 0 < clipped_length now window e ->
     format_entry_line e now (tz now) ∈ render_today tz entries now) /\
  (forall e, listed now window e = true ->
     (0 < clipped_length now window e <-> start e < end_or e now)).
Proof.
  intros window. split; [apply render_today_filter|].
  rewrite render_today_filter. fold window.
  assert (Hw : fst window < snd window).
  { subst window. unfold today_window, combine_min_utc. simpl. lia. }
  split; [rewrite length_fmap; apply length_filter|]. split.
  - intros e He Hpos. apply list_elem_of_fmap. exists e. split; [reflexivity|].
    apply list_elem_of_filter. split; [|exact He].
    unfold listed. unfold clipped_length in Hpos.
    destruct (Z.ltb_spec 0 (Z.min (end_or e now) (snd window)
                              - Z.max (start e) (fst window))); [|lia].
    destruct (Z.leb_spec (snd window) (start e));
      destruct (Z.leb_spec (end_or e now) (fst window)); simpl; lia || reflexivity.
  - intros e Hl. unfold listed in Hl. unfold clipped_length.
    destruct (Z.leb_spec (snd window) (start e));
      destruct (Z.leb_spec (end_or e now) (fst window)); simpl in Hl;
      try discriminate.
    destruct (Z.ltb_spec 0 (Z.min (end_or e now) (snd window)
                              - Z.max (start e) (fst window))); lia.
Qed.

Lemma render_today_counted_witness :
  let e := mkEntry 32400 (Some 34200) [119%N] in
  format_entry_line e 36000 3600 ∈ render_today (fun _ => 3600) [e] 36000.
Proof.
  intros e.
  apply (proj1 (proj2 (proj2 (render_today_counted (fun _ => 3600) [e] 36000))) e).
  - apply list_elem_of_here.
  - vm_compute. reflexivity.
Defined.

(** ** The status line *)

(** X18. [render_status] never raises; the line reads "Status: idle"
    exactly when no entry of the list is open; otherwise it names the first
    open entry and the time from its start to the clock reading. *)
Theorem render_status_idle (entries : list Entry) (now : datetime) :
  (exists line, render_status entries now = Some line) /\
  (render_status entries now = Some (pystr_of_string "Status: idle")
   <-> open_count entries = 0%nat) /\
  (forall idx e, find_open entries = Some idx -> entries !! idx = Some e ->
     render_status entries now
     = Some (pystr_of_string "Status: running '" ++ text e
             ++ pystr_of_string
                  ("' (" +:+ format_duration (now - start e) +:+ " elapsed)"))).
Proof.
  unfold render_status.
  destruct (find_open entries) as [idx|] eqn:Hopen.
  - destruct (find_open_lookup _ _ Hopen) as (e & Hl & He). rewrite Hl.
    split; [eauto|]. split.
    + split.
      * intros H. exfalso.
        apply (f_equal (fun line => line ≫= (fun l => l !! 8%nat))) in H.
        vm_compute in H. discriminate H.
      * intros Hc. apply find_open_None in Hc. congruence.
    + intros idx' e' [= <-] Hl'. rewrite Hl in Hl'. injection Hl' as <-.
      unfold duration, end_or. rewrite He. reflexivity.
  - split; [eauto|]. split.
    + split; [intros _; apply find_open_None, Hopen | reflexivity].
    + discriminate.
Qed.

Lemma render_status_idle_witness :
  render_status [mkEntry 0 (Some 600) [97%N]; mkEntry 32400 None [119%N]] 34200
  = Some (pystr_of_string "Status: running '" ++ [119%N]
          ++ pystr_of_string
               ("' (" +:+ format_duration (34200 - 32400) +:+ " elapsed)")).
Proof.
  apply (proj2 (proj2 (render_status_idle
                         [mkEntry 0 (Some 600) [97%N]; mkEntry 32400 None [119%N]]
                         34200)) 1%nat (mkEntry 32400 None [119%N]));
    reflexivity.
Defined.

(** X19. After a start that went through, the status line computed from
    [self.entries] at any later reading [now] shows the stripped description
    as running, with the time elapsed since the start. *)
Theorem start_entry_status (description : pystr) (t now : datetime) (self : App) :
  strip description <> [] ->
  find_open (log_file self) = None ->
  let app := snd (step (Start description t) self) in
  render_status (self_entries app) now
  = Some (pystr_of_string "Status: running '" ++ strip description
          ++ pystr_of_string
               ("' (" +:+ format_duration (now - t) +:+ " elapsed)")).
Proof.
  intros Htext Hnone. simpl.
  destruct (start_entry_cases t (entry_text_set description self))
    as [[Hs _] | [(_ & [idx Hidx] & _) | (_ & _ & ->)]]; simpl in *;
    [congruence | congruence |].
  unfold render_status.
  rewrite find_open_app by exact Hnone. simpl.
  rewrite Nat.add_0_r, list_lookup_middle by reflexivity. reflexivity.
Qed.

Lemma start_entry_status_witness :
  render_status
    (self_entries (snd (step (Start [32; 119]%N 32400) (mkApp [] [] []))))
    34200
  = Some (pystr_of_string "Status: running '" ++ strip [32; 119]%N
          ++ pystr_of_string
               ("' (" +:+ format_duration (34200 - 32400) +:+ " elapsed)")).
Proof.
  apply (start_entry_status [32; 119]%N 32400 34200 (mkApp [] [] []));
    [vm_compute; congruence | reflexivity].
Defined.

(** ** Whitespace around the description *)

Lemma lstrip_id (s : pystr) :
  (forall c, head s = Some c -> isspace c = false) -> lstrip s = s.
Proof.
  destruct s as [|c rest]; [reflexivity|]. simpl. intros H.
  rewrite (H c eq_refl). reflexivity.
Qed.

Lemma strip_idempotent (s : pystr) : strip (strip s) = strip s.
Proof.
  destruct (strip_spec s) as [_ [Hhead Hlast]].
  unfold strip at 1. rewrite (lstrip_id _ Hhead).
  unfold rstrip. rewrite lstrip_id, reverse_involutive; [reflexivity|].
  intros c Hc. rewrite head_reverse in Hc. apply Hlast, Hc.
Qed.

(** X20. The whitespace around a description has no effect on what a start
    does: the description and its stripped form give the same outcome and
    the same log. *)
Theorem start_entry_ignores_whitespace (description : pystr) (now : datetime)
    (self : App) :
  fst (step (Start description now) self)
  = fst (step (Start (strip description) now) self) /\
  log_file (snd (step (Start description now) self))
  = log_file (snd (step (Start (strip description) now) self)).
Proof.
  simpl. unfold start_entry, read_entries. simpl. rewrite strip_idempotent.
  destruct (bool_decide (strip description = [])) eqn:Hb.
  - split; reflexivity.
  - destruct (find_open (log_file self)); split; reflexivity.
Qed.

(** ** What a command leaves on the screen state *)

(** X21. As long as the storage calls and the redrawing done by [refresh]
    return, a command ends in one of two ways.  Either it goes through, and then it has reloaded [self.entries]
    from the log it has just written, so the two agree; or it is turned
    down with a dialog, and then it has changed neither the log nor
    [self.entries], which keeps whatever it held before.  In particular the
    position [stop_entry] takes from [find_open] is always within the
    list. *)
Theorem step_outcome (c : Command) (self : App) :
  (fst (step c self) = Returned None /\
   self_entries (snd (step c self)) = log_file (snd (step c self)))
  \/ ((exists dialog, fst (step c self) = Returned (Some dialog)) /\
      log_file (snd (step c self)) = log_file self /\
      self_entries (snd (step c self)) = self_entries self).
Proof.
  destruct c as [description now | now]; simpl.
  - destruct (start_entry_cases now (entry_text_set description self))
      as [[_ ->] | [(_ & _ & ->) | (_ & _ & ->)]]; simpl.
    + right. unfold EmptyDescription. eauto.
    + right. unfold AlreadyRunning. eauto.
    + left. auto.
  - destruct (find_open (log_file self)) as [idx|] eqn:Hopen.
    + destruct (stop_entry_running now self idx Hopen) as (e & _ & _ & Hstop).
      simpl in Hstop. rewrite Hstop. left. auto.
    + unfold stop_entry, read_entries. rewrite Hopen. right.
      unfold NothingRunning. eauto.
Qed.

(** ** The summary line *)

(** X22. The summary line shows two durations that are never negative:
    the time worked in today's window and the time remaining, which is at
    most 8 hours; the two add up to 8 hours until 8 hours are worked, and
    from then on the remaining time is zero. *)
Theorem render_summary_fields (tz : timezone) (entries : list Entry)
    (now : datetime) :
  exists worked left,
    render_summary tz entries now
    = "Today: " +:+ format_hhmm worked +:+ " worked, "
      +:+ format_hhmm left +:+ " remaining to 08:00" /\
    worked = daily_total entries now (today_window tz now) /\
    0 <= worked /\ 0 <= left <= timedelta_hours 8 /\
    (worked <= timedelta_hours 8 -> worked + left = timedelta_hours 8) /\
    (timedelta_hours 8 <= worked -> left = 0).
Proof.
  exists (daily_total entries now (today_window tz now)),
    (remaining (daily_total entries now (today_window tz now)) (timedelta_hours 8)).
  pose proof (daily_total_bounds entries now (today_window tz now)) as [Hpos _].
  unfold render_summary, remaining, timedelta_hours in *. cbv zeta.
  destruct (Z.ltb_spec
              (3600 * 8 - daily_total entries now (today_window tz now)) 0);
    repeat split; intros; lia || reflexivity.
Qed.

Lemma render_summary_fields_witness :
  exists worked left,
    render_summary (fun _ => 0) [mkEntry 32400 (Some 34200) [119%N]] 36000
    = "Today: " +:+ format_hhmm worked +:+ " worked, "
      +:+ format_hhmm left +:+ " remaining to 08:00" /\
    worked = 1800 /\ worked + left = timedelta_hours 8.
Proof.
  destruct (render_summary_fields (fun _ => 0)
              [mkEntry 32400 (Some 34200) [119%N]] 36000)
    as (worked & left & Htext & Hworked & _ & _ & Hsum & _).
  exists worked, left. split; [exact Htext|].
  assert (Hval : worked = 1800) by (rewrite Hworked; reflexivity).
  split; [exact Hval|]. apply Hsum. rewrite Hval. vm_compute. congruence.
Defined.
